(** * A shallow embedding of [midterm.py] (World Cup player statistics pipeline)

    Python values are modelled as follows.
    - [str] is [String.string] (ASCII characters); [str.upper] and [str.lower]
      act on the ASCII letters.
    - [int] is [Z].
    - [float] is [Q]: an exact rational. Binary representation error is not
      modelled, but the float range is: a result whose magnitude rounds past
      the largest double raises [OverflowError], as CPython does.
    - A raised exception is the [Err] branch of [result]. *)

From Stdlib Require Import ZArith QArith Qround Qabs List String Ascii Bool Lia.
From Stdlib Require Import Sorting.Sorted Sorting.Permutation Lqa.
Import ListNotations.
Open Scope string_scope.
Open Scope Z_scope.
Open Scope list_scope.

(** ** Exceptions and the error monad *)

Inductive exn : Type :=
| ZeroDivisionError
| OverflowError
| IndexError
| ValueError
| TypeError
| AttributeError
| AssertionError.

Inductive result (A : Type) : Type :=
| Ok (a : A)
| Err (e : exn).
Arguments Ok {A} a.
Arguments Err {A} e.

Definition bind {A B} (m : result A) (k : A -> result B) : result B :=
  match m with
  | Ok a => k a
  | Err e => Err e
  end.

Notation "x <- m ;; k" := (bind m (fun x => k))
  (at level 61, m at next level, right associativity).

Fixpoint mapM {A B} (f : A -> result B) (l : list A) : result (list B) :=
  match l with
  | [] => Ok []
  | x :: xs => y <- f x ;; ys <- mapM f xs ;; Ok (y :: ys)
  end.

Definition py_assert (b : bool) : result unit :=
  if b then Ok tt else Err AssertionError.

(** ** Python values held in a row *)

Inductive cell : Type :=
| CStr (s : string)
| CInt (z : Z)
| CFloat (q : Q).

Definition row := list cell.

(** A method of [str] called on a cell: any other type lacks the method. *)
Definition cell_str (e : exn) (c : cell) : result string :=
  match c with
  | CStr s => Ok s
  | _ => Err e
  end.

(** ** Lists: subscripts, slices, [insert], [index] *)

(** Normalises a subscript [i] of a sequence of length [n]; negative
    subscripts count from the end. *)
Definition py_norm_index (n : nat) (i : Z) : option nat :=
  let zn := Z.of_nat n in
  if (0 <=? i) && (i <? zn) then Some (Z.to_nat i)
  else if (- zn <=? i) && (i <? 0) then Some (Z.to_nat (zn + i))
  else None.

(** [l[i]] *)
Definition py_getitem {A} (l : list A) (i : Z) : result A :=
  match py_norm_index (List.length l) i with
  | Some k =>
      match nth_error l k with
      | Some x => Ok x
      | None => Err IndexError
      end
  | None => Err IndexError
  end.

Fixpoint list_set {A} (l : list A) (k : nat) (x : A) : list A :=
  match l, k with
  | [], _ => []
  | _ :: ys, O => x :: ys
  | y :: ys, S k' => y :: list_set ys k' x
  end.

(** [l[i] = x] *)
Definition py_setitem {A} (l : list A) (i : Z) (x : A) : result (list A) :=
  match py_norm_index (List.length l) i with
  | Some k => Ok (list_set l k x)
  | None => Err IndexError
  end.

(** Clamps a slice bound as [slice.indices] does for step 1. *)
Definition py_slice_bound (n : Z) (b : Z) : Z :=
  if b <? 0 then Z.max 0 (b + n) else Z.min b n.

(** [l[start:stop]]; an omitted bound is [None]. *)
Definition py_slice {A} (l : list A) (start stop : option Z) : list A :=
  let n := Z.of_nat (List.length l) in
  let a := match start with Some b => py_slice_bound n b | None => 0 end in
  let b := match stop with Some b => py_slice_bound n b | None => n end in
  firstn (Z.to_nat (b - a)) (skipn (Z.to_nat a) l).

(** [l.insert(i, x)] *)
Definition py_insert {A} (l : list A) (i : Z) (x : A) : list A :=
  let k := Z.to_nat (py_slice_bound (Z.of_nat (List.length l)) i) in
  firstn k l ++ x :: skipn k l.

(** [l.index(x)] for a list of strings. *)
Fixpoint py_list_index (l : list string) (x : string) : result Z :=
  match l with
  | [] => Err ValueError
  | y :: ys =>
      if String.eqb y x then Ok 0
      else i <- py_list_index ys x ;; Ok (i + 1)%Z
  end.

(** ** Strings *)

Fixpoint str_map (f : ascii -> ascii) (s : string) : string :=
  match s with
  | EmptyString => EmptyString
  | String c s' => String (f c) (str_map f s')
  end.

Definition ascii_upper (c : ascii) : ascii :=
  let n := nat_of_ascii c in
  if (97 <=? n)%nat && (n <=? 122)%nat then ascii_of_nat (n - 32) else c.

Definition ascii_lower (c : ascii) : ascii :=
  let n := nat_of_ascii c in
  if (65 <=? n)%nat && (n <=? 90)%nat then ascii_of_nat (n + 32) else c.

(** [s.upper()] and [s.lower()] *)
Definition str_upper (s : string) : string := str_map ascii_upper s.
Definition str_lower (s : string) : string := str_map ascii_lower s.

(** [s[:k]] and [s[k:]] for [k >= 0] *)
Fixpoint str_take (k : nat) (s : string) : string :=
  match k, s with
  | O, _ => EmptyString
  | _, EmptyString => EmptyString
  | S k', String c s' => String c (str_take k' s')
  end.

Fixpoint str_drop (k : nat) (s : string) : string :=
  match k, s with
  | O, _ => s
  | _, EmptyString => EmptyString
  | S k', String _ s' => str_drop k' s'
  end.

(** [s.replace(old, new)] where [old] and [new] are one character long. *)
Definition str_replace_char (old new : ascii) (s : string) : string :=
  str_map (fun c => if Ascii.eqb c old then new else c) s.

(** [s.split(sep)] where [sep] is one character long. *)
Fixpoint str_split_char (sep : ascii) (s : string) : list string :=
  match s with
  | EmptyString => [EmptyString]
  | String c s' =>
      let parts := str_split_char sep s' in
      if Ascii.eqb c sep then EmptyString :: parts
      else match parts with
           | p :: ps => String c p :: ps
           | [] => [String c EmptyString]
           end
  end.

(** ** [int(x)] *)

Definition is_space (c : ascii) : bool :=
  let n := nat_of_ascii c in
  ((9 <=? n)%nat && (n <=? 13)%nat) || ((28 <=? n)%nat && (n <=? 32)%nat).

Definition is_digit (c : ascii) : bool :=
  let n := nat_of_ascii c in (48 <=? n)%nat && (n <=? 57)%nat.

Fixpoint drop_spaces (cs : list ascii) : list ascii :=
  match cs with
  | c :: cs' => if is_space c then drop_spaces cs' else cs
  | [] => []
  end.

Definition strip_spaces (cs : list ascii) : list ascii :=
  rev (drop_spaces (rev (drop_spaces cs))).

(** Decimal digits, a single [_] allowed between two digits. [prev] says
    whether the previous character was a digit. *)
Fixpoint parse_digits (acc : Z) (prev : bool) (cs : list ascii) : option Z :=
  match cs with
  | [] => if prev then Some acc else None
  | c :: cs' =>
      if is_digit c then
        parse_digits (acc * 10 + Z.of_nat (nat_of_ascii c - 48))%Z true cs'
      else if Ascii.eqb c "_"%char && prev then parse_digits acc false cs'
      else None
  end.

(** [int(s)] for a string [s], base 10. *)
Definition py_int_str (s : string) : result Z :=
  let r :=
    match strip_spaces (list_ascii_of_string s) with
    | c :: cs =>
        if Ascii.eqb c "-"%char then option_map Z.opp (parse_digits 0 false cs)
        else if Ascii.eqb c "+"%char then parse_digits 0 false cs
        else parse_digits 0 false (c :: cs)
    | [] => None
    end in
  match r with
  | Some z => Ok z
  | None => Err ValueError
  end.

(** Truncation towards zero, as [int(f)] for a float [f]. *)
Definition Qtrunc (q : Q) : Z := Z.quot (Qnum q) (Zpos (Qden q)).

(** [int(x)] *)
Definition py_int (c : cell) : result Z :=
  match c with
  | CStr s => py_int_str s
  | CInt z => Ok z
  | CFloat q => Ok (Qtrunc q)
  end.

(** ** Floats *)

(** A value that rounds to infinity as a double: at least halfway between the
    largest double, [2^1024 - 2^971], and [2^1024]. *)
Definition float_overflows (q : Q) : bool :=
  Qle_bool (inject_Z (2 ^ 1024 - 2 ^ 970)) (Qabs q).

(** [int / int]: true division. *)
Definition py_truediv (a b : Z) : result Q :=
  if b =? 0 then Err ZeroDivisionError
  else
    let q := Qred (inject_Z a / inject_Z b) in
    if float_overflows q then Err OverflowError else Ok q.

(** Nearest integer, ties to even. *)
Definition round_half_even (q : Q) : Z :=
  let f := Qfloor q in
  match Qcompare (q - inject_Z f) (1 # 2) with
  | Lt => f
  | Gt => f + 1
  | Eq => if Z.even f then f else f + 1
  end.

(** [round(x, ndigits)] for a float [x] (CPython's [float.__round__]). *)
Definition py_round (x : Q) (ndigits : Z) : result Q :=
  if (ndigits <? - 2 ^ 63) || (2 ^ 63 - 1 <? ndigits) then Err OverflowError
  else if 323 <? ndigits then Ok x
  else if ndigits <? -308 then Ok 0%Q
  else
    let scale :=
      if 0 <=? ndigits then inject_Z (10 ^ ndigits)
      else Qinv (inject_Z (10 ^ (- ndigits))) in
    let y := Qred (inject_Z (round_half_even (x * scale)) / scale) in
    if float_overflows y then Err OverflowError else Ok y.

(** [float(x)]. The model does not parse float literals: the cells it is
    applied to in [main] are the conversion rates, which are floats. *)
Definition py_float (c : cell) : result Q :=
  match c with
  | CFloat q => Ok q
  | CInt z =>
      if float_overflows (inject_Z z) then Err OverflowError else Ok (inject_Z z)
  | CStr _ => Err ValueError
  end.

(** ** The functions of [midterm.py] *)

(** The [try] block of [calculate_shot_conversion_rate]. *)
Definition conversion_rate_body (goals shots precision : Z) : result Q :=
  q <- py_truediv goals shots ;; py_round q precision.

(** [calculate_shot_conversion_rate(goals, shots, precision)]: the
    [except ZeroDivisionError] clause returns [0.0]. *)
Definition calculate_shot_conversion_rate (goals shots precision : Z) : result Q :=
  match conversion_rate_body goals shots precision with
  | Err ZeroDivisionError => Ok 0%Q
  | r => r
  end.

(** [clean_squad(squad)] *)
Definition clean_squad (squad : string) : string * string :=
  (str_upper (str_take 2 squad), str_drop 3 squad).

(** [format_player_position(position)] *)
Definition format_player_position (position : string) : string :=
  str_replace_char ","%char "|"%char position.

(** [get_multi_position_players(players, pos_idx)] *)
Fixpoint get_multi_position_players (players : list row) (pos_idx : Z)
    : result (list row) :=
  match players with
  | [] => Ok []
  | player :: rest =>
      c <- py_getitem player pos_idx ;;
      s <- cell_str AttributeError c ;;
      let position := str_split_char "|"%char s in
      tl <- get_multi_position_players rest pos_idx ;;
      if (1 <? List.length position)%nat then Ok (player :: tl) else Ok tl
  end.

(** [get_team(players, squad_idx, squad)] *)
Fixpoint get_team (players : list row) (squad_idx : Z) (squad : string)
    : result (list row) :=
  match players with
  | [] => Ok []
  | player :: rest =>
      c <- py_getitem player squad_idx ;;
      s <- cell_str AttributeError c ;;
      tl <- get_team rest squad_idx squad ;;
      if String.eqb (str_lower s) (str_lower squad) then Ok (player :: tl)
      else Ok tl
  end.

(** [int(player[gls_idx])] *)
Definition player_goals (player : row) (gls_idx : Z) : result Z :=
  c <- py_getitem player gls_idx ;; py_int c.

(** The loop of [get_top_scorer]: [lst] is the list built so far and
    [most_goals] the largest goal count seen. *)
Fixpoint top_scorer_loop (players : list row) (gls_idx : Z)
    (lst : list row) (most_goals : Z) : result (list row) :=
  match players with
  | [] => Ok lst
  | player :: rest =>
      g <- player_goals player gls_idx ;;
      if (0 <? g) && (most_goals <? g) then
        top_scorer_loop rest gls_idx [player] g
      else if (0 <? g) && (g =? most_goals) then
        top_scorer_loop rest gls_idx (lst ++ [player])%list most_goals
      else top_scorer_loop rest gls_idx lst most_goals
  end.

(** [get_top_scorer(players, gls_idx)] *)
Definition get_top_scorer (players : list row) (gls_idx : Z) : result (list row) :=
  top_scorer_loop players gls_idx [] 0.

(** [get_player_shooting_numbers(player, slice_)] with
    [slice_ = slice(start, stop)]. *)
Definition get_player_shooting_numbers (player : row) (start stop : Z)
    : result (list Z) :=
  mapM py_int (py_slice player (Some start) (Some stop)).

(** Python's [==] on two cells: numbers compare by value across [int] and
    [float]; a string never equals a number. *)
Definition py_cell_eq (a b : cell) : bool :=
  match a, b with
  | CStr s, CStr t => String.eqb s t
  | CInt x, CInt y => Z.eqb x y
  | CInt x, CFloat q => Qeq_bool (inject_Z x) q
  | CFloat q, CInt x => Qeq_bool q (inject_Z x)
  | CFloat p, CFloat q => Qeq_bool p q
  | _, _ => false
  end.

(** The loop of [get_team_names]; [lst] is the list built so far. *)
Fixpoint team_names_loop (players : list row) (squad_idx : Z) (lst : list cell)
    : result (list cell) :=
  match players with
  | [] => Ok lst
  | player :: rest =>
      c <- py_getitem player squad_idx ;;
      if existsb (py_cell_eq c) lst then team_names_loop rest squad_idx lst
      else team_names_loop rest squad_idx (lst ++ [c])
  end.

(** [get_team_names(players, squad_idx)] *)
Definition get_team_names (players : list row) (squad_idx : Z) : result (list cell) :=
  team_names_loop players squad_idx [].

(** The loop of [get_team_shooting_numbers], with the three counters. The
    unpacking [goals, shots, shots_on_target = ...] raises [ValueError]
    unless exactly three numbers come back. *)
Fixpoint team_shooting_loop (team : list row) (start stop : Z)
    (goals_count shot_count shots_on_target_count : Z) : result (Z * Z * Z) :=
  match team with
  | [] => Ok (goals_count, shot_count, shots_on_target_count)
  | player :: rest =>
      ns <- get_player_shooting_numbers player start stop ;;
      match ns with
      | [goals; shots; shots_on_target] =>
          team_shooting_loop rest start stop (goals_count + goals)
            (shot_count + shots) (shots_on_target_count + shots_on_target)
      | _ => Err ValueError
      end
  end.

(** [get_team_shooting_numbers(team, slice_)] with [slice_ = slice(start, stop)]. *)
Definition get_team_shooting_numbers (team : list row) (start stop : Z)
    : result (Z * Z * Z) :=
  team_shooting_loop team start stop 0 0 0.

(** ** The table-reshaping stages of [main] *)

Definition expected_headers : list string :=
  ["Rk"; "Player"; "Pos"; "Squad"; "Age"; "Born"; "90s"; "Gls"; "Sh"; "SoT"].

Definition expected_last_player : list string :=
  ["619"; "Claudia Zornoza"; "MF"; "es Spain"; "32"; "1990"; "0.4"; "0"; "0"; "0"].

Definition list_string_eqb (a b : list string) : bool :=
  (List.length a =? List.length b)%nat
  && forallb (fun p => String.eqb (fst p) (snd p)) (combine a b).

(** Challenge 01 (1.2 - 1.5): [data] is what [read_csv] returns. Each row is
    cut to its first 10 fields, the two assertions are checked, and the table
    is split into [headers] and [players]; a data cell is a [str]. *)
Definition challenge01 (data : list (list string))
    : result (list string * list row) :=
  let data1 := map (fun r => py_slice r None (Some 10)) data in
  first <- py_getitem data1 0 ;;
  last <- py_getitem data1 (-1) ;;
  _ <- py_assert (list_string_eqb first expected_headers) ;;
  _ <- py_assert (list_string_eqb last expected_last_player) ;;
  Ok (first, map (map CStr) (py_slice data1 (Some 1) None)).

(** One iteration of the loop of 3.2. *)
Definition reshape_player (pos_idx squad_idx : Z) (player : row) : result row :=
  c <- py_getitem player pos_idx ;;
  pos <- cell_str AttributeError c ;;
  player1 <- py_setitem player pos_idx (CStr (format_player_position pos)) ;;
  c' <- py_getitem player1 squad_idx ;;
  sq <- cell_str TypeError c' ;;
  let code := fst (clean_squad sq) in
  let squad := snd (clean_squad sq) in
  let player2 := py_insert player1 squad_idx (CStr code) in
  py_setitem player2 (squad_idx + 1) (CStr squad).

(** Challenge 03 (3.1 - 3.4): returns the headers, the players and the new
    [squad_idx]. *)
Definition challenge03 (headers : list string) (players : list row)
    : result (list string * list row * Z) :=
  pos_idx <- py_list_index headers "Pos" ;;
  squad_idx <- py_list_index headers "Squad" ;;
  players' <- mapM (reshape_player pos_idx squad_idx) players ;;
  Ok (py_insert headers squad_idx "Country_Code", players', squad_idx + 1).

(** One iteration of the loop of 10.2-4. *)
Definition add_conversion_rates (start stop : Z) (player : row) : result row :=
  ns <- get_player_shooting_numbers player start stop ;;
  match ns with
  | [goals; shots; shots_on_target] =>
      r1 <- calculate_shot_conversion_rate goals shots 3 ;;
      r2 <- calculate_shot_conversion_rate goals shots_on_target 3 ;;
      Ok (player ++ [CFloat r1; CFloat r2])%list
  | _ => Err ValueError
  end.

(** Challenges 07 - 10 as far as they touch the table: [gls_idx] (7.2), the
    slice of 9.2, the loop of 10.2-4 and the header extension of 10.5. The
    steps in between only read the table. *)
Definition challenge10 (headers : list string) (players : list row)
    : result (list string * list row) :=
  gls_idx <- py_list_index headers "Gls" ;;
  let stop := Z.of_nat (List.length headers) in
  players' <- mapM (add_conversion_rates gls_idx stop) players ;;
  Ok ((headers ++ ["shots_conv_rate"; "shots_on_target_conv_rate"])%list, players').

(** [main] up to the table written to [stu-players.csv]. *)
Definition main_upto_03 (data : list (list string))
    : result (list string * list row * Z) :=
  hp <- challenge01 data ;;
  challenge03 (fst hp) (snd hp).

(** [main] up to the table written to [stu-players-shooting_efficiency.csv]:
    the table after 3.4 and the table after 10.5. *)
Definition main_upto_10 (data : list (list string))
    : result ((list string * list row) * (list string * list row)) :=
  r3 <- main_upto_03 data ;;
  let '(headers3, players3, _) := r3 in
  r10 <- challenge10 headers3 players3 ;;
  Ok ((headers3, players3), r10).

(** ** Challenge 11: one summary row per country *)

(** [team_headers] of 11.2. *)
Definition team_headers : list string :=
  ["country"; "goals"; "shots"; "shots_on_target"; "shots_conv_rate";
   "shots_on_target_conv_rate"].

(** One iteration of the loop of 11.3-7; [country] is a squad name, a
    string. The two rates use the default precision 2. *)
Definition team_metrics (players : list row) (squad_idx start stop : Z)
    (country : string) : result row :=
  team <- get_team players squad_idx country ;;
  gso <- get_team_shooting_numbers team start stop ;;
  let '(goals, shots, shots_on_target) := gso in
  r1 <- calculate_shot_conversion_rate goals shots 2 ;;
  r2 <- calculate_shot_conversion_rate goals shots_on_target 2 ;;
  Ok [CStr country; CInt goals; CInt shots; CInt shots_on_target;
      CFloat r1; CFloat r2].

(** The loop of 11.3-7 over [countries]. *)
Definition challenge11 (players : list row) (squad_idx start stop : Z)
    (countries : list string) : result (list row) :=
  mapM (team_metrics players squad_idx start stop) countries.

(** ** Challenge 08: the top scorers of every team *)

(** One iteration of the loop of 8.1-5. *)
Definition team_top_scorer (players : list row) (squad_idx gls_idx : Z)
    (country : string) : result (list row) :=
  team <- get_team players squad_idx country ;;
  get_top_scorer team gls_idx.

(** The loop of 8.1-5: [team_top_scorers.extend(top_scorers)] for each
    country in turn. *)
Definition challenge08 (players : list row) (squad_idx gls_idx : Z)
    (countries : list string) : result (list row) :=
  tss <- mapM (team_top_scorer players squad_idx gls_idx) countries ;;
  Ok (List.concat tss).

(** ** Challenge 12: efficiency ratings and ranking *)

(** The [if]/[elif] chain of 12.1-2 (the literals [0.4], [0.3], [0.2]). *)
Definition efficiency_rating (conv_rate : Q) : string :=
  if Qle_bool (2 # 5) conv_rate then "Top Tier"
  else if Qle_bool (3 # 10) conv_rate && negb (Qle_bool (2 # 5) conv_rate) then
    "Upper Middle Tier"
  else if Qle_bool (1 # 5) conv_rate && negb (Qle_bool (3 # 10) conv_rate) then
    "Lower Middle Tier"
  else "Bottom Tier".

(** One iteration of the loop of 12.1-2. *)
Definition rate_team (team : row) : result row :=
  c <- py_getitem team (-1) ;;
  conv_rate <- py_float c ;;
  Ok (team ++ [CStr (efficiency_rating conv_rate)])%list.

(** The loop of 12.1-2 over [teams]. *)
Definition rate_teams (teams : list row) : result (list row) :=
  mapM rate_team teams.

(** The sort key of 12.4, [(-float(x[-2]), x[0])]. The model asks [x[0]] to
    be a string; in [main] it is always the country name. *)
Definition sort_key (x : row) : result (Q * string) :=
  c <- py_getitem x (-2) ;;
  r <- py_float c ;;
  c0 <- py_getitem x 0 ;;
  country <- cell_str TypeError c0 ;;
  Ok (- r, country)%Q.

(** Python's [<] on two such key tuples. *)
Definition key_lt (a b : Q * string) : bool :=
  if Qeq_bool (fst a) (fst b) then String.ltb (snd a) (snd b)
  else negb (Qle_bool (fst b) (fst a)).

(** Stable insertion: [x] goes before the first element whose key is
    larger than its own. *)
Fixpoint insert_keyed {A} (kx : Q * string * A) (l : list (Q * string * A))
    : list (Q * string * A) :=
  match l with
  | [] => [kx]
  | ky :: l' =>
      if key_lt (fst kx) (fst ky) then kx :: l else ky :: insert_keyed kx l'
  end.

Definition sort_keyed {A} (l : list (Q * string * A)) : list (Q * string * A) :=
  fold_left (fun acc kx => insert_keyed kx acc) l [].

(** [sorted(teams, key=...)]: the keys are computed first, then the rows
    are sorted stably by them. Every stable sort returns the same list, so
    insertion sort stands for Python's sort. *)
Definition sort_teams (teams : list row) : result (list row) :=
  keyed <- mapM (fun x => k <- sort_key x ;; Ok (k, x)) teams ;;
  Ok (map snd (sort_keyed keyed)).

(** ** Relations used in the statements *)

(** [l1] is a subsequence of [l2]: its elements occur in [l2] in the same
    order. *)
Inductive subseq {A : Type} : list A -> list A -> Prop :=
| subseq_nil : subseq [] []
| subseq_take (x : A) (l1 l2 : list A) : subseq l1 l2 -> subseq (x :: l1) (x :: l2)
| subseq_skip (x : A) (l1 l2 : list A) : subseq l1 l2 -> subseq l1 (x :: l2).

(** The largest element of a list, [None] for the empty list. *)
Definition list_max (l : list Z) : option Z :=
  fold_right
    (fun x acc => match acc with None => Some x | Some m => Some (Z.max x m) end)
    None l.

(** The top scorers as the spec describes them, given each row's goal
    count: every row tied at the maximum goal count when that maximum is
    positive, and none otherwise. *)
Definition top_scorers_spec (goals : row -> Z) (players : list row) : list row :=
  match list_max (map goals players) with
  | Some m => if 0 <? m then filter (fun p => goals p =? m) players else []
  | None => []
  end.

(** The shots-on-target conversion rate of a rated summary row, [x[-2]],
    and its country name, [x[0]]. *)
Definition team_sot_rate (x : row) : result Q :=
  c <- py_getitem x (-2) ;; py_float c.

Definition team_country (x : row) : result string :=
  c0 <- py_getitem x 0 ;; cell_str TypeError c0.

(** [a] may come before [b] in the ranked report: a higher
    shots-on-target conversion rate, or an equal one and a country name that
    is not larger. *)
Definition ranked_before (a b : row) : Prop :=
  exists ra rb ca cb,
    team_sot_rate a = Ok ra /\ team_sot_rate b = Ok rb /\
    team_country a = Ok ca /\ team_country b = Ok cb /\
    ((rb < ra)%Q \/ ((ra == rb)%Q /\ String.leb ca cb = true)).

(** Challenge 12 (12.1 - 12.4): rate every summary row, extend the team
    headers, sort. *)
Definition challenge12 (teams : list row) : result (list string * list row) :=
  rated <- rate_teams teams ;;
  ranked <- sort_teams rated ;;
  Ok (team_headers ++ ["efficiency_rating"], ranked).

(** The number of occurrences of a character. *)
Fixpoint count_char (c : ascii) (s : string) : nat :=
  match s with
  | EmptyString => O
  | String d s' => (if Ascii.eqb d c then 1 else 0) + count_char c s'
  end.

(** The rank of a tier label, ["Bottom Tier"] lowest. *)
Definition tier_rank (label : string) : nat :=
  if String.eqb label "Top Tier" then 3
  else if String.eqb label "Upper Middle Tier" then 2
  else if String.eqb label "Lower Middle Tier" then 1
  else 0.

(** ** Sample inputs *)

(** The headers after 3.4. *)
Definition headers_after_03 : list string :=
  ["Rk"; "Player"; "Pos"; "Country_Code"; "Squad"; "Age"; "Born"; "90s";
   "Gls"; "Sh"; "SoT"].

(** Three players: two with several positions, two of team Spain, two tied
    at 2 goals. *)
Definition selector_sample : list row :=
  [[CStr "Ann"; CStr "MF|DF"; CStr "Spain"; CStr "2"];
   [CStr "Bea"; CStr "GK"; CStr "China PR"; CStr "0"];
   [CStr "Cat"; CStr "FW|MF"; CStr "spain"; CStr "2"]].

Definition top_scorer_sample : list row :=
  [[CStr "Ann"; CStr "2"]; [CStr "Bea"; CStr "2"]; [CStr "Cat"; CStr "1"]].

Definition top_scorer_team_sample : list row :=
  [[CStr "Ann"; CStr "Spain"; CStr "2"]; [CStr "Bea"; CStr "China PR"; CStr "1"];
   [CStr "Cat"; CStr "SPAIN"; CStr "2"]; [CStr "Dan"; CStr "Spain"; CStr "0"]].

Definition sample_goals (p : row) : Z :=
  match player_goals p 1 with Ok g => g | Err _ => 0 end.

(** Three rated summary rows; the two with rate [0.3] tie. *)
Definition ranking_sample : list row :=
  [[CStr "Brazil"; CInt 3; CInt 10; CInt 10; CFloat (3 # 10); CFloat (3 # 10);
    CStr "Upper Middle Tier"];
   [CStr "Argentina"; CInt 3; CInt 10; CInt 10; CFloat (3 # 10); CFloat (3 # 10);
    CStr "Upper Middle Tier"];
   [CStr "Chile"; CInt 5; CInt 10; CInt 10; CFloat (1 # 2); CFloat (1 # 2);
    CStr "Top Tier"]].

(** * Properties *)

(** ** The conversion rate *)

(** C1 (counterexample): [calculate_shot_conversion_rate(1, 10, 3)] returns a
    float that is not [0.333]. *)
Lemma C1_rate_1_10_3_not_0_333 :
  exists r, calculate_shot_conversion_rate 1 10 3 = Ok r /\ ~ (r == 333 # 1000)%Q.
Proof.
  exists (1 # 10)%Q. split.
  - vm_compute. reflexivity.
  - unfold Qeq. simpl. discriminate.
Qed.

(** C1 (amended): [calculate_shot_conversion_rate(1, 10, 3)] returns [0.1],
    the quotient [1 / 10] rounded to 3 decimal places. *)
Lemma C1_rate_1_10_3 :
  calculate_shot_conversion_rate 1 10 3 = Ok (1 # 10)%Q.
Proof. vm_compute. reflexivity. Qed.

(** C4: with [shots = 0] the conversion rate is [0.0] for every [goals] and
    [precision]; every other fault of the [try] block propagates unchanged,
    and [ZeroDivisionError] never escapes the function. *)
Theorem C4_only_zero_division_recovered :
  (forall goals precision,
      calculate_shot_conversion_rate goals 0 precision = Ok 0%Q) /\
  (forall goals shots precision e,
      conversion_rate_body goals shots precision = Err e ->
      e <> ZeroDivisionError ->
      calculate_shot_conversion_rate goals shots precision = Err e) /\
  (forall goals shots precision e,
      calculate_shot_conversion_rate goals shots precision = Err e ->
      e <> ZeroDivisionError).
Proof.
  split; [| split].
  - intros goals precision. reflexivity.
  - intros goals shots precision e Hbody Hne.
    unfold calculate_shot_conversion_rate. rewrite Hbody.
    destruct e; congruence.
  - intros goals shots precision e H.
    unfold calculate_shot_conversion_rate in H.
    destruct (conversion_rate_body goals shots precision) as [q | []];
      congruence.
Qed.

(** A fault other than division by zero, [OverflowError] on [2^1100 / 1],
    reaches the caller. *)
Lemma C4_only_zero_division_recovered_witness :
  conversion_rate_body (2 ^ 1100) 1 0 = Err OverflowError /\
  calculate_shot_conversion_rate (2 ^ 1100) 1 0 = Err OverflowError.
Proof.
  assert (H : conversion_rate_body (2 ^ 1100) 1 0 = Err OverflowError)
    by (vm_compute; reflexivity).
  split; [exact H |].
  apply (proj1 (proj2 C4_only_zero_division_recovered)); [exact H | discriminate].
Defined.

(** ** Field normalisers *)

Lemma str_take_substring (k : nat) (s : string) :
  str_take k s = substring 0 k s.
Proof.
  revert s; induction k as [| k IH]; intros [| c s]; simpl; try reflexivity.
  now rewrite IH.
Qed.

Lemma str_drop_substring (k : nat) (s : string) :
  str_drop k s = substring k (String.length s - k) s.
Proof.
  revert s; induction k as [| k IH]; intros s.
  - simpl. rewrite Nat.sub_0_r.
    induction s as [| c s IHs]; simpl; [reflexivity | f_equal; exact IHs].
  - destruct s as [| c s]; simpl; [reflexivity | apply IH].
Qed.

(** C10: [clean_squad] is total: for every string [s], also one shorter than
    three characters, it returns the first two characters of [s] in upper
    case and the characters of [s] from index 3 on; on [""] it returns
    [("", "")]. *)
Theorem C10_clean_squad_total :
  (forall s, clean_squad s =
     (str_upper (substring 0 2 s), substring 3 (String.length s - 3) s)) /\
  clean_squad "" = ("", "").
Proof.
  split.
  - intros s. unfold clean_squad.
    now rewrite str_take_substring, str_drop_substring.
  - reflexivity.
Qed.

Lemma format_player_position_cons (d : ascii) (s : string) :
  format_player_position (String d s)
  = String (if Ascii.eqb d ","%char then "|"%char else d)
           (format_player_position s).
Proof. reflexivity. Qed.

(** C9: [format_player_position] is idempotent, as its output holds no
    comma. *)
Theorem C9_format_player_position_idempotent (s : string) :
  format_player_position (format_player_position s) = format_player_position s
  /\ ~ In ","%char (list_ascii_of_string (format_player_position s)).
Proof.
  induction s as [| d s [IH1 IH2]]; [split; [reflexivity | simpl; tauto] |].
  rewrite !format_player_position_cons, IH1.
  destruct (Ascii.eqb d ","%char) eqn:E; simpl.
  - split; [reflexivity |]. intros [H | H]; [discriminate | contradiction].
  - rewrite E. split; [reflexivity |].
    intros [H | H]; [| contradiction].
    subst d. rewrite Ascii.eqb_refl in E. discriminate.
Qed.

(** ** The reshaping stage *)

(** C3: 3.2 - 3.4 turn the row
    [["1","P","DF,MF","ng Nigeria","20","2000","1.0","1","10","4"]] under the
    input headers into
    [["1","P","DF|MF","NG","Nigeria","20","2000","1.0","1","10","4"]], and
    the headers gain ["Country_Code"] right before ["Squad"]. *)
Theorem C3_reshape_scenario :
  challenge03 expected_headers
    [map CStr ["1"; "P"; "DF,MF"; "ng Nigeria"; "20"; "2000"; "1.0"; "1"; "10"; "4"]]
  = Ok (["Rk"; "Player"; "Pos"; "Country_Code"; "Squad"; "Age"; "Born"; "90s";
         "Gls"; "Sh"; "SoT"],
        [map CStr ["1"; "P"; "DF|MF"; "NG"; "Nigeria"; "20"; "2000"; "1.0";
                   "1"; "10"; "4"]],
        4).
Proof. vm_compute. reflexivity. Qed.

(** ** Row selectors *)

Lemma bind_ok {A B} (m : result A) (k : A -> result B) (b : B) :
  bind m k = Ok b -> exists a, m = Ok a /\ k a = Ok b.
Proof. destruct m as [a | e]; simpl; [eauto | discriminate]. Qed.

Ltac invert_binds :=
  repeat match goal with
  | H : bind _ _ = Ok _ |- _ =>
      let a := fresh "a" in let Ha := fresh "Ha" in
      apply bind_ok in H; destruct H as [a [Ha H]]
  end.

Lemma subseq_nil_l {A} (l : list A) : subseq [] l.
Proof. induction l; constructor; assumption. Qed.

Lemma subseq_refl {A} (l : list A) : subseq l l.
Proof. induction l; constructor; assumption. Qed.

Lemma subseq_app {A} (a b c d : list A) :
  subseq a b -> subseq c d -> subseq (a ++ c) (b ++ d).
Proof. intros H1 H2; induction H1; simpl; try constructor; assumption. Qed.

Create HintDb subseq.
#[local] Hint Resolve subseq_nil_l subseq_refl subseq_app : subseq.
#[local] Hint Constructors subseq : subseq.

Lemma multi_position_subseq (players : list row) (pos_idx : Z) (res : list row) :
  get_multi_position_players players pos_idx = Ok res -> subseq res players.
Proof.
  revert res; induction players as [| p ps IH]; intros res H; simpl in H.
  - injection H as <-. constructor.
  - invert_binds.
    destruct (1 <? List.length (str_split_char "|"%char a0))%nat;
      injection H as <-; auto with subseq.
Qed.

Lemma get_team_subseq (players : list row) (squad_idx : Z) (squad : string)
    (res : list row) :
  get_team players squad_idx squad = Ok res -> subseq res players.
Proof.
  revert res; induction players as [| p ps IH]; intros res H; simpl in H.
  - injection H as <-. constructor.
  - invert_binds.
    destruct (String.eqb (str_lower a0) (str_lower squad));
      injection H as <-; auto with subseq.
Qed.

Lemma top_scorer_loop_subseq (gls_idx : Z) (rest done lst : list row)
    (most : Z) (res : list row) :
  subseq lst done -> top_scorer_loop rest gls_idx lst most = Ok res ->
  subseq res (done ++ rest).
Proof.
  revert done lst most; induction rest as [| p ps IH];
    intros done lst most Hsub H; simpl in H.
  - injection H as <-. now rewrite app_nil_r.
  - invert_binds. replace (done ++ p :: ps) with ((done ++ [p]) ++ ps)
      by now rewrite <- app_assoc.
    destruct ((0 <? a) && (most <? a)); [| destruct ((0 <? a) && (a =? most))];
      (eapply IH; [| exact H]).
    + change [p] with ([] ++ [p]). auto with subseq.
    + auto with subseq.
    + rewrite <- (app_nil_r lst). auto with subseq.
Qed.

(** C8: [get_multi_position_players], [get_team] and [get_top_scorer] return
    subsequences of their input: each returned row is an input row, and the
    returned rows keep their input order. *)
Theorem C8_selectors_subsequence :
  (forall players pos_idx res,
      get_multi_position_players players pos_idx = Ok res -> subseq res players) /\
  (forall players squad_idx squad res,
      get_team players squad_idx squad = Ok res -> subseq res players) /\
  (forall players gls_idx res,
      get_top_scorer players gls_idx = Ok res -> subseq res players).
Proof.
  split; [exact multi_position_subseq |].
  split; [exact get_team_subseq |].
  intros players gls_idx res H.
  exact (top_scorer_loop_subseq gls_idx players [] [] 0 res subseq_nil H).
Qed.

Lemma C8_selectors_subsequence_witness :
  subseq [nth 0 selector_sample []; nth 2 selector_sample []] selector_sample /\
  subseq [nth 0 selector_sample []; nth 2 selector_sample []] selector_sample /\
  subseq [nth 0 selector_sample []; nth 2 selector_sample []] selector_sample.
Proof.
  split; [| split].
  - apply (proj1 C8_selectors_subsequence _ 1). vm_compute. reflexivity.
  - apply (proj1 (proj2 C8_selectors_subsequence) _ 2 "SPAIN").
    vm_compute. reflexivity.
  - apply (proj2 (proj2 C8_selectors_subsequence) _ 3). vm_compute. reflexivity.
Defined.

(** ** [get_top_scorer] against the spec *)

Section TopScorer.

Variable gls_idx : Z.
Variable goals : row -> Z.

(** The running maximum of the loop, started at [most_goals = 0]. *)
Definition most_of (done : list row) : Z :=
  fold_left (fun acc p => Z.max acc (goals p)) done 0.

Definition tied_at (m : Z) (p : row) : bool := (0 <? goals p) && (goals p =? m).

Lemma fold_max_ge (l : list row) (a : Z) :
  a <= fold_left (fun acc p => Z.max acc (goals p)) l a.
Proof.
  revert a; induction l as [| p l IH]; intros a; simpl; [lia |].
  specialize (IH (Z.max a (goals p))). lia.
Qed.

Lemma fold_max_bound (l : list row) (a : Z) (p : row) :
  In p l -> goals p <= fold_left (fun acc p => Z.max acc (goals p)) l a.
Proof.
  revert a; induction l as [| q l IH]; intros a Hin; simpl in *; [tauto |].
  destruct Hin as [<- | Hin]; [| now apply IH].
  pose proof (fold_max_ge l (Z.max a (goals q))). lia.
Qed.

Lemma fold_max_list_max (l : list row) (a : Z) :
  fold_left (fun acc p => Z.max acc (goals p)) l a =
  match list_max (map goals l) with None => a | Some m => Z.max a m end.
Proof.
  revert a; induction l as [| p l IH]; intros a; simpl; [reflexivity |].
  rewrite IH. destruct (list_max (map goals l)); lia.
Qed.

Lemma most_of_snoc (done : list row) (p : row) :
  most_of (done ++ [p]) = Z.max (most_of done) (goals p).
Proof. unfold most_of. now rewrite fold_left_app. Qed.

Lemma filter_all_false {A} (f : A -> bool) (l : list A) :
  (forall x, In x l -> f x = false) -> filter f l = [].
Proof.
  induction l as [| x l IH]; intros H; simpl; [reflexivity |].
  rewrite H by (left; reflexivity). apply IH. intros y Hy. apply H. now right.
Qed.

Lemma top_scorer_loop_spec (rest done : list row) :
  (forall p, In p rest -> player_goals p gls_idx = Ok (goals p)) ->
  top_scorer_loop rest gls_idx (filter (tied_at (most_of done)) done) (most_of done)
  = Ok (filter (tied_at (most_of (done ++ rest))) (done ++ rest)).
Proof.
  revert done; induction rest as [| p ps IH]; intros done Hg.
  - simpl. now rewrite app_nil_r.
  - simpl. rewrite (Hg p (or_introl eq_refl)). simpl.
    replace (done ++ p :: ps) with ((done ++ [p]) ++ ps)
      by now rewrite <- app_assoc.
    assert (Hge : 0 <= most_of done) by apply fold_max_ge.
    assert (Hbd : forall q, In q done -> goals q <= most_of done)
      by (intros q Hq; now apply fold_max_bound).
    assert (Hps : forall q, In q ps -> player_goals q gls_idx = Ok (goals q))
      by (intros q Hq; apply Hg; now right).
    rewrite <- (IH (done ++ [p]) Hps), most_of_snoc, filter_app. simpl.
    destruct ((0 <? goals p) && (most_of done <? goals p)) eqn:E1.
    + apply andb_true_iff in E1 as [E1 E2]. apply Z.ltb_lt in E2.
      rewrite Z.max_r by lia.
      rewrite filter_all_false.
      * unfold tied_at. rewrite E1, Z.eqb_refl. reflexivity.
      * intros q Hq. specialize (Hbd q Hq).
        destruct (goals q =? goals p) eqn:E3; [apply Z.eqb_eq in E3; lia |].
        unfold tied_at. rewrite E3. apply andb_false_r.
    + destruct ((0 <? goals p) && (goals p =? most_of done)) eqn:E2.
      * apply andb_true_iff in E2 as [E2 E3]. apply Z.eqb_eq in E3.
        rewrite Z.max_l by lia. unfold tied_at.
        rewrite E2, E3, Z.eqb_refl. reflexivity.
      * assert (Hle : goals p <= most_of done).
        { apply andb_false_iff in E1 as [E1 | E1].
          - apply Z.ltb_ge in E1. lia.
          - apply Z.ltb_ge in E1. lia. }
        rewrite Z.max_l by lia. unfold tied_at.
        rewrite E2, app_nil_r. reflexivity.
Qed.

End TopScorer.

(** C2: whenever each row's goal field parses as the integer [goals p],
    [get_top_scorer] returns exactly the rows tied at the maximum goal count
    if that maximum is positive, and [[]] otherwise; every returned row has
    a positive goal count. *)
Theorem C2_get_top_scorer_ties (players : list row) (gls_idx : Z)
    (goals : row -> Z)
    (Hgoals : forall p, In p players -> player_goals p gls_idx = Ok (goals p)) :
  get_top_scorer players gls_idx = Ok (top_scorers_spec goals players) /\
  (forall p, In p (top_scorers_spec goals players) -> 0 < goals p).
Proof.
  assert (Hloop := top_scorer_loop_spec gls_idx goals players [] Hgoals).
  simpl in Hloop. unfold most_of in Hloop. simpl in Hloop.
  rewrite fold_max_list_max in Hloop.
  unfold get_top_scorer, top_scorers_spec.
  destruct (list_max (map goals players)) as [m |] eqn:Em;
    cbv beta iota in Hloop.
  - assert (Hbd : forall p, In p players -> goals p <= m).
    { intros p Hp. pose proof (fold_max_bound goals players (-1 - Z.abs m) p Hp)
        as H. rewrite fold_max_list_max, Em in H. lia. }
    destruct (0 <? m) eqn:Hm.
    + apply Z.ltb_lt in Hm. rewrite Z.max_r in Hloop by lia.
      split.
      * rewrite Hloop. f_equal. apply filter_ext_in. intros p Hp.
        unfold tied_at. destruct (goals p =? m) eqn:E; [| apply andb_false_r].
        apply Z.eqb_eq in E. rewrite E. apply Z.ltb_lt in Hm. now rewrite Hm.
      * intros p Hp. apply filter_In in Hp as [_ Hp]. apply Z.eqb_eq in Hp. lia.
    + apply Z.ltb_ge in Hm. rewrite Z.max_l in Hloop by lia.
      split; [| simpl; tauto].
      rewrite Hloop. f_equal. apply filter_all_false. intros p Hp.
      unfold tied_at. destruct (0 <? goals p) eqn:E; [| reflexivity].
      apply Z.ltb_lt in E. specialize (Hbd p Hp).
      simpl. apply Z.eqb_neq. lia.
  - destruct players as [| p ps].
    + split; [reflexivity | simpl; tauto].
    + simpl in Em. destruct (list_max (map goals ps)); discriminate.
Qed.

Lemma C2_get_top_scorer_ties_witness :
  get_top_scorer top_scorer_sample 1 =
    Ok [[CStr "Ann"; CStr "2"]; [CStr "Bea"; CStr "2"]].
Proof.
  rewrite (proj1 (C2_get_top_scorer_ties top_scorer_sample 1 sample_goals
                    ltac:(intros p Hp; simpl in Hp;
                          repeat destruct Hp as [<- | Hp]; easy))).
  vm_compute. reflexivity.
Defined.

(** ** Efficiency ratings *)

Lemma py_getitem_last {A} (t : list A) (x : A) :
  py_getitem (t ++ [x]) (-1) = Ok x.
Proof.
  unfold py_getitem, py_norm_index. rewrite length_app. simpl.
  replace (Z.of_nat (List.length t + 1)) with (Z.of_nat (List.length t) + 1)
    by lia.
  destruct (0 <=? -1) eqn:E; [discriminate |]. simpl.
  replace (- (Z.of_nat (List.length t) + 1) <=? -1) with true
    by (symmetry; apply Z.leb_le; lia).
  simpl. replace (Z.to_nat (Z.of_nat (List.length t) + 1 + -1))
    with (List.length t) by lia.
  rewrite nth_error_app2 by lia. now rewrite Nat.sub_diag.
Qed.

Lemma efficiency_rating_spec (r : Q) :
  (efficiency_rating r = "Top Tier" <-> (2 # 5 <= r)%Q) /\
  (efficiency_rating r = "Upper Middle Tier" <-> (3 # 10 <= r /\ r < 2 # 5)%Q) /\
  (efficiency_rating r = "Lower Middle Tier" <-> (1 # 5 <= r /\ r < 3 # 10)%Q) /\
  (efficiency_rating r = "Bottom Tier" <-> (r < 1 # 5)%Q).
Proof.
  destruct r as [n d]. unfold efficiency_rating, Qle_bool, Qle, Qlt. simpl.
  repeat match goal with
  | |- context [Z.leb ?a ?b] => destruct (Z.leb_spec a b)
  end;
  simpl; repeat split; intros; try discriminate; try reflexivity; lia.
Qed.

(** C5: for summary rows whose last field is the shots-on-target conversion
    rate [r], the loop of 12.1-2 appends one label as a new last field; the
    label is ["Top Tier"] iff [r >= 0.4], ["Upper Middle Tier"] iff
    [0.3 <= r < 0.4], ["Lower Middle Tier"] iff [0.2 <= r < 0.3] and
    ["Bottom Tier"] iff [r < 0.2]. *)
Theorem C5_efficiency_tiers (teams : list (row * Q)) :
  rate_teams (map (fun tr => fst tr ++ [CFloat (snd tr)]) teams)
  = Ok (map (fun tr => fst tr ++ [CFloat (snd tr);
                                  CStr (efficiency_rating (snd tr))]) teams) /\
  (forall r : Q,
    (efficiency_rating r = "Top Tier" <-> (2 # 5 <= r)%Q) /\
    (efficiency_rating r = "Upper Middle Tier" <-> (3 # 10 <= r /\ r < 2 # 5)%Q) /\
    (efficiency_rating r = "Lower Middle Tier" <-> (1 # 5 <= r /\ r < 3 # 10)%Q) /\
    (efficiency_rating r = "Bottom Tier" <-> (r < 1 # 5)%Q)).
Proof.
  split; [| exact efficiency_rating_spec].
  unfold rate_teams.
  induction teams as [| [t r] teams IH]; [reflexivity |].
  simpl. unfold rate_team at 1. rewrite py_getitem_last. simpl.
  rewrite IH. simpl. now rewrite <- app_assoc.
Qed.

(** ** The ranking sort *)

Lemma string_compare_lt_trans (s1 s2 s3 : string) :
  String.compare s1 s2 = Lt -> String.compare s2 s3 = Lt ->
  String.compare s1 s3 = Lt.
Proof.
  revert s2 s3; induction s1 as [| a s1 IH]; intros [| b s2] [| c s3];
    simpl; try discriminate; try reflexivity.
  unfold Ascii.compare.
  destruct (N.compare_spec (N_of_ascii a) (N_of_ascii b)) as [Hab | Hab | Hab];
  destruct (N.compare_spec (N_of_ascii b) (N_of_ascii c)) as [Hbc | Hbc | Hbc];
  intros H1 H2; try discriminate;
  destruct (N.compare_spec (N_of_ascii a) (N_of_ascii c)) as [Hac | Hac | Hac];
  try reflexivity; try lia.
  now apply (IH s2 s3).
Qed.

Lemma string_ltb_trans (s1 s2 s3 : string) :
  String.ltb s1 s2 = true -> String.ltb s2 s3 = true -> String.ltb s1 s3 = true.
Proof.
  unfold String.ltb.
  destruct (String.compare s1 s2) eqn:E1; try discriminate.
  destruct (String.compare s2 s3) eqn:E2; try discriminate.
  now rewrite (string_compare_lt_trans s1 s2 s3 E1 E2).
Qed.

Lemma string_ltb_asym (s1 s2 : string) :
  String.ltb s1 s2 = true -> String.ltb s2 s1 = false.
Proof.
  unfold String.ltb. rewrite (String.compare_antisym s2 s1).
  destruct (String.compare s1 s2); simpl; congruence.
Qed.

Lemma key_lt_trans (a b c : Q * string) :
  key_lt a b = true -> key_lt b c = true -> key_lt a c = true.
Proof.
  destruct a as [qa sa], b as [qb sb], c as [qc sc].
  unfold key_lt; simpl.
  destruct (Qeq_bool qa qb) eqn:Eab.
  all: destruct (Qeq_bool qb qc) eqn:Ebc.
  all: destruct (Qeq_bool qa qc) eqn:Eac.
  all: repeat match goal with
       | H : Qeq_bool _ _ = true |- _ => apply Qeq_bool_iff in H
       | H : Qeq_bool _ _ = false |- _ => apply Qeq_bool_neq in H
       end.
  all: intros H1 H2.
  all: try (eapply string_ltb_trans; eassumption).
  all: repeat match goal with
       | H : negb _ = true |- _ => apply negb_true_iff in H
       | |- negb _ = true => apply negb_true_iff
       | H : Qle_bool _ _ = false |- _ =>
           apply Bool.not_true_iff_false in H; rewrite Qle_bool_iff in H
       | |- Qle_bool _ _ = false =>
           apply Bool.not_true_iff_false; rewrite Qle_bool_iff
       end.
  all: destruct qa as [na da], qb as [nb db], qc as [nc dc].
  all: unfold Qeq, Qle in *; simpl in *.
  all: nia.
Qed.

Lemma key_lt_asym (a b : Q * string) :
  key_lt a b = true -> key_lt b a = false.
Proof.
  destruct a as [qa sa], b as [qb sb]. unfold key_lt; simpl.
  rewrite (Qeq_bool_comm qb qa).
  destruct (Qeq_bool qa qb) eqn:E; [apply string_ltb_asym |].
  apply Qeq_bool_neq in E.
  rewrite !negb_true_iff, !negb_false_iff, <- !Bool.not_true_iff_false,
    !Qle_bool_iff.
  intros H1 H2. apply H1. now apply Qlt_le_weak, Qnot_le_lt.
Qed.

Section Insertion.

Variable A : Type.

(** [ka] may stay before [kb]: [kb]'s key is not smaller. *)
Definition key_le (ka kb : Q * string * A) : Prop := key_lt (fst kb) (fst ka) = false.

Lemma insert_keyed_In (kx ky : Q * string * A) (l : list (Q * string * A)) :
  In ky (insert_keyed kx l) -> kx = ky \/ In ky l.
Proof.
  induction l as [| kz l IH]; simpl; [tauto |].
  destruct (key_lt (fst kx) (fst kz)); simpl; [tauto |].
  intros [H | H]; [tauto |]. destruct (IH H); tauto.
Qed.

Lemma insert_keyed_sorted (kx : Q * string * A) (l : list (Q * string * A)) :
  StronglySorted key_le l -> StronglySorted key_le (insert_keyed kx l).
Proof.
  induction l as [| ky l IH]; intros Hs; simpl.
  - repeat constructor.
  - apply StronglySorted_inv in Hs as [Hs Hall].
    destruct (key_lt (fst kx) (fst ky)) eqn:E.
    + constructor; [constructor; assumption |].
      constructor; [unfold key_le; now apply key_lt_asym |].
      rewrite Forall_forall in *. intros kz Hz. specialize (Hall kz Hz).
      unfold key_le in *.
      destruct (key_lt (fst kz) (fst kx)) eqn:E2; [| reflexivity].
      rewrite (key_lt_trans _ _ _ E2 E) in Hall. discriminate.
    + constructor; [now apply IH |].
      rewrite Forall_forall in *. intros kz Hz.
      destruct (insert_keyed_In kx kz l Hz) as [-> | Hz']; [exact E |].
      now apply Hall.
Qed.

Lemma sort_keyed_gen (l acc : list (Q * string * A)) :
  StronglySorted key_le acc ->
  StronglySorted key_le (fold_left (fun acc kx => insert_keyed kx acc) l acc) /\
  (forall ky, In ky (fold_left (fun acc kx => insert_keyed kx acc) l acc) ->
              In ky l \/ In ky acc).
Proof.
  revert acc; induction l as [| kx l IH]; intros acc Hs; simpl; [tauto |].
  destruct (IH (insert_keyed kx acc) (insert_keyed_sorted kx acc Hs))
    as [H1 H2].
  split; [exact H1 |]. intros ky Hy.
  destruct (H2 ky Hy) as [H | H]; [tauto |].
  destruct (insert_keyed_In kx ky acc H); tauto.
Qed.

End Insertion.

Lemma mapM_key_ok (teams : list row) (keyed : list (Q * string * row)) :
  mapM (fun x => k <- sort_key x ;; Ok (k, x)) teams = Ok keyed ->
  forall kx, In kx keyed -> sort_key (snd kx) = Ok (fst kx).
Proof.
  revert keyed; induction teams as [| t teams IH]; intros keyed H kx Hin;
    simpl in H.
  - injection H as <-. contradiction.
  - invert_binds. injection H as <-. injection Ha as <-.
    destruct Hin as [<- | Hin]; [exact Ha1 | now apply (IH a0)].
Qed.

Lemma sort_key_parts (x : row) (k : Q * string) :
  sort_key x = Ok k ->
  exists r c, team_sot_rate x = Ok r /\ team_country x = Ok c /\ k = (- r, c)%Q.
Proof.
  unfold sort_key, team_sot_rate, team_country. intros H. invert_binds.
  injection H as <-. exists a0, a2.
  rewrite Ha, Ha1; cbn [bind]. rewrite Ha0, Ha2; cbn [bind]. auto.
Qed.

Lemma key_le_ranked_before (ra rb : Q) (ca cb : string) :
  key_lt (- rb, cb)%Q (- ra, ca)%Q = false ->
  ((rb < ra)%Q \/ ((ra == rb)%Q /\ String.leb ca cb = true)).
Proof.
  unfold key_lt; simpl.
  destruct (Qeq_bool (- rb) (- ra)) eqn:E.
  - apply Qeq_bool_iff in E. intros H. right. split.
    + destruct ra as [na da], rb as [nb db]. unfold Qeq in *; simpl in *. lia.
    + unfold String.ltb, String.leb in *.
      rewrite (String.compare_antisym ca cb).
      destruct (String.compare cb ca); simpl; congruence.
  - apply Qeq_bool_neq in E. rewrite negb_false_iff, Qle_bool_iff. intros H.
    left. destruct ra as [na da], rb as [nb db].
    unfold Qeq, Qle, Qlt in *; simpl in *. lia.
Qed.

(** C6: the ranked report of 12.4 lists the teams by shots-on-target
    conversion rate, highest first; two teams with equal rates are in
    ascending order of country name. *)
Theorem C6_ranked_report_order (teams out : list row) :
  sort_teams teams = Ok out -> StronglySorted ranked_before out.
Proof.
  unfold sort_teams. intros H. invert_binds. injection H as <-.
  pose proof (mapM_key_ok teams a Ha) as Hkeys.
  destruct (sort_keyed_gen row a [] (SSorted_nil _)) as [Hs Hin].
  unfold sort_keyed.
  assert (Hk : forall kx, In kx (fold_left (fun acc kx => insert_keyed kx acc) a [])
                          -> sort_key (snd kx) = Ok (fst kx)).
  { intros kx Hx. destruct (Hin kx Hx) as [H | []]. now apply Hkeys. }
  clear Hin Hkeys Ha.
  induction Hs as [| kx l Hs IH Hall]; simpl; constructor.
  - apply IH. intros ky Hy. apply Hk. now right.
  - rewrite Forall_forall in *. intros y Hy.
    apply in_map_iff in Hy as [ky [<- Hy]].
    specialize (Hall ky Hy). unfold key_le in Hall.
    destruct (sort_key_parts (snd kx) (fst kx) (Hk kx (or_introl eq_refl)))
      as [ra [ca [Hra [Hca Ekx]]]].
    destruct (sort_key_parts (snd ky) (fst ky) (Hk ky (or_intror Hy)))
      as [rb [cb [Hrb [Hcb Eky]]]].
    rewrite Ekx, Eky in Hall.
    exists ra, rb, ca, cb. repeat split; try assumption.
    now apply key_le_ranked_before.
Qed.

(** ** Header and rows in lockstep *)

Lemma mapM_Forall2 {A B} (f : A -> result B) (l : list A) (l' : list B) :
  mapM f l = Ok l' -> Forall2 (fun x y => f x = Ok y) l l'.
Proof.
  revert l'; induction l as [| x l IH]; intros l' H; simpl in H.
  - injection H as <-. constructor.
  - invert_binds. injection H as <-. constructor; [exact Ha | now apply IH].
Qed.

Lemma list_string_eqb_true (a b : list string) :
  list_string_eqb a b = true -> a = b.
Proof.
  revert b; induction a as [| x a IH]; intros [| y b]; unfold list_string_eqb;
    simpl; try discriminate; [reflexivity |].
  intros H. apply andb_true_iff in H as [Hlen H].
  apply andb_true_iff in H as [Hxy H].
  apply String.eqb_eq in Hxy. subst y. f_equal. apply IH.
  unfold list_string_eqb. now rewrite Hlen, H.
Qed.

Lemma py_slice_from_1 {A} (l : list A) : py_slice l (Some 1) None = tl l.
Proof.
  destruct l as [| x l]; [reflexivity |].
  unfold py_slice, py_slice_bound. simpl List.length.
  replace (1 <? 0) with false by reflexivity.
  replace (Z.min 1 (Z.of_nat (S (List.length l)))) with 1 by lia.
  replace (Z.to_nat (Z.of_nat (S (List.length l)) - 1)) with (List.length l)
    by lia.
  simpl. apply firstn_all.
Qed.

Lemma tl_map {A B} (f : A -> B) (l : list A) : tl (map f l) = map f (tl l).
Proof. now destruct l. Qed.

Lemma wide_row {A} (o : list A) :
  (10 <= List.length o)%nat ->
  exists x0 x1 x2 x3 x4 x5 x6 x7 x8 x9 rest,
    o = [x0; x1; x2; x3; x4; x5; x6; x7; x8; x9] ++ rest.
Proof.
  intros H.
  do 10 (destruct o as [| ? o]; [simpl in H; lia |]).
  do 11 eexists. reflexivity.
Qed.

Lemma py_slice_first_10 {A} (x0 x1 x2 x3 x4 x5 x6 x7 x8 x9 : A) (rest : list A) :
  py_slice ([x0; x1; x2; x3; x4; x5; x6; x7; x8; x9] ++ rest) None (Some 10)
  = [x0; x1; x2; x3; x4; x5; x6; x7; x8; x9].
Proof.
  unfold py_slice, py_slice_bound. rewrite length_app. simpl List.length.
  replace (10 <? 0) with false by reflexivity.
  replace (Z.min 10 (Z.of_nat (10 + List.length rest))) with 10 by lia.
  reflexivity.
Qed.

Lemma reshape_player_wide (x0 x1 x2 x3 x4 x5 x6 x7 x8 x9 : string) :
  reshape_player 2 3 (map CStr [x0; x1; x2; x3; x4; x5; x6; x7; x8; x9])
  = Ok [CStr x0; CStr x1; CStr (format_player_position x2);
        CStr (fst (clean_squad x3)); CStr (snd (clean_squad x3));
        CStr x4; CStr x5; CStr x6; CStr x7; CStr x8; CStr x9].
Proof. reflexivity. Qed.


Lemma main_upto_03_shape (data : list (list string))
    (Hwide : forall r, In r data -> (10 <= List.length r)%nat)
    (headers3 : list string) (players3 : list row) (sidx : Z) :
  main_upto_03 data = Ok (headers3, players3, sidx) ->
  headers3 = headers_after_03 /\ sidx = 4 /\
  Forall (fun r => List.length r = 11%nat) players3 /\
  Forall2 (fun o r => exists sq,
             nth_error o 3 = Some sq /\
             nth_error r 3 = Some (CStr (fst (clean_squad sq))) /\
             nth_error r 4 = Some (CStr (snd (clean_squad sq))))
          (tl data) players3.
Proof.
  unfold main_upto_03, challenge01. intros H. invert_binds.
  injection Ha as <-. cbn [fst snd] in H.
  unfold py_assert in Ha2.
  destruct (list_string_eqb a0 expected_headers) eqn:E; [| discriminate].
  apply list_string_eqb_true in E. subst a0.
  unfold challenge03 in H.
  change (py_list_index expected_headers "Pos") with (@Ok Z 2) in H.
  change (py_list_index expected_headers "Squad") with (@Ok Z 3) in H.
  cbn [bind] in H. invert_binds. injection H as <- <- <-.
  split; [reflexivity |]. split; [reflexivity |].
  rewrite py_slice_from_1 in Ha.
  apply mapM_Forall2 in Ha.
  assert (Hw : forall r, In r (tl data) -> (10 <= List.length r)%nat)
    by (intros r Hr; apply Hwide; destruct data; [contradiction | now right]).
  rewrite tl_map in Ha.
  clear - Ha Hw.
  remember (tl data) as rows eqn:Erows. clear Erows.
  remember (map (map CStr) (map (fun r => py_slice r None (Some 10)) rows))
    as ps eqn:Eps.
  revert rows Hw Eps.
  induction Ha as [| p r ps rs Hp Hrest IH]; intros rows Hw Eps.
  - destruct rows; [| discriminate]. split; constructor.
  - destruct rows as [| o rows]; [discriminate |].
    simpl in Eps. injection Eps as Ep Eps.
    destruct (wide_row o (Hw o (or_introl eq_refl)))
      as [x0 [x1 [x2 [x3 [x4 [x5 [x6 [x7 [x8 [x9 [rest ->]]]]]]]]]]].
    rewrite py_slice_first_10 in Ep. subst p.
    rewrite reshape_player_wide in Hp. injection Hp as <-.
    destruct (IH rows (fun r Hr => Hw r (or_intror Hr)) Eps) as [H1 H2].
    split; constructor; try assumption; [reflexivity |].
    exists x3. repeat split.
Qed.

Lemma challenge10_shape (players3 : list row) (headers10 : list string)
    (players10 : list row) :
  challenge10 headers_after_03 players3 = Ok (headers10, players10) ->
  headers10 = headers_after_03 ++ ["shots_conv_rate"; "shots_on_target_conv_rate"] /\
  Forall2 (fun r3 r10 => exists goals shots sot a b,
             get_player_shooting_numbers r3 8 11 = Ok [goals; shots; sot] /\
             calculate_shot_conversion_rate goals shots 3 = Ok a /\
             calculate_shot_conversion_rate goals sot 3 = Ok b /\
             r10 = r3 ++ [CFloat a; CFloat b])
          players3 players10.
Proof.
  unfold challenge10.
  change (py_list_index headers_after_03 "Gls") with (@Ok Z 8).
  change (Z.of_nat (List.length headers_after_03)) with 11.
  cbn [bind]. intros H. invert_binds. injection H as <- <-.
  split; [reflexivity |].
  apply mapM_Forall2 in Ha. eapply Forall2_impl; [| exact Ha].
  intros r3 r10 Hr. unfold add_conversion_rates in Hr. invert_binds.
  destruct a0 as [| g [| s [| sot [| ? ?]]]]; try discriminate.
  invert_binds. injection Hr as <-.
  do 5 eexists. repeat split; eassumption.
Qed.

Lemma Forall2_length_app (players3 players10 : list row) (P : row -> row -> Prop) :
  Forall (fun r => List.length r = 11%nat) players3 ->
  Forall2 (fun r3 r10 => P r3 r10 /\ exists a b, r10 = r3 ++ [a; b]) players3 players10 ->
  Forall (fun r => List.length r = 13%nat) players10.
Proof.
  intros Hl H. induction H as [| r3 r10 p3 p10 [_ [a [b ->]]] _ IH];
    constructor; inversion Hl; subst.
  - rewrite length_app. simpl. lia.
  - now apply IH.
Qed.

(** C7 (counterexample): an input row with only 5 fields passes 3.2 - 3.4
    and leaves a 6-field row under the 11 headers written to
    [stu-players.csv]. *)
Lemma C7_short_row_misaligned :
  main_upto_03 [expected_headers; ["1"; "P"; "MF"; "ng Nigeria"; "20"];
                expected_last_player]
  = Ok (headers_after_03,
        [map CStr ["1"; "P"; "MF"; "NG"; "Nigeria"; "20"];
         map CStr ["619"; "Claudia Zornoza"; "MF"; "ES"; "Spain"; "32"; "1990";
                   "0.4"; "0"; "0"; "0"]],
        4) /\
  List.length (map CStr ["1"; "P"; "MF"; "NG"; "Nigeria"; "20"])
  <> List.length headers_after_03.
Proof. split; [vm_compute; reflexivity | discriminate]. Qed.

(** C7 (amended): when every input row has at least 10 fields, the header
    list and every row have the same length after each reshaping stage:
    11 after 3.4, with ["Country_Code"] and ["Squad"] at indices 3 and 4
    holding the split [Squad] value in every row; 13 after 10.5, with
    ["shots_conv_rate"] and ["shots_on_target_conv_rate"] at indices 11
    and 12 holding the two conversion rates in every row. *)
Theorem C7_header_row_alignment (data : list (list string))
    (Hwide : forall r, In r data -> (10 <= List.length r)%nat) :
  (forall headers3 players3 sidx,
     main_upto_03 data = Ok (headers3, players3, sidx) ->
     headers3 = headers_after_03 /\
     Forall (fun r => List.length r = List.length headers3) players3 /\
     Forall2 (fun o r => exists sq,
                nth_error o 3 = Some sq /\
                nth_error r 3 = Some (CStr (fst (clean_squad sq))) /\
                nth_error r 4 = Some (CStr (snd (clean_squad sq))))
             (tl data) players3) /\
  (forall headers3 players3 headers10 players10,
     main_upto_10 data = Ok ((headers3, players3), (headers10, players10)) ->
     headers10 = headers3 ++ ["shots_conv_rate"; "shots_on_target_conv_rate"] /\
     Forall (fun r => List.length r = List.length headers10) players10 /\
     Forall2 (fun r3 r10 => exists goals shots sot a b,
                get_player_shooting_numbers r3 8 11 = Ok [goals; shots; sot] /\
                calculate_shot_conversion_rate goals shots 3 = Ok a /\
                calculate_shot_conversion_rate goals sot 3 = Ok b /\
                r10 = r3 ++ [CFloat a; CFloat b])
             players3 players10).
Proof.
  split.
  - intros headers3 players3 sidx H.
    destruct (main_upto_03_shape data Hwide _ _ _ H) as [-> [_ [Hl Hf]]].
    split; [reflexivity |]. split; [exact Hl | exact Hf].
  - intros headers3 players3 headers10 players10 H.
    unfold main_upto_10 in H. invert_binds.
    destruct a as [[h3 p3] sidx].
    destruct (main_upto_03_shape data Hwide _ _ _ Ha) as [-> [_ [Hl _]]].
    invert_binds. injection H as <- <- ->.
    destruct (challenge10_shape p3 headers10 players10 Ha0) as [-> Hf].
    split; [reflexivity |]. split; [| exact Hf].
    apply (Forall2_length_app p3 players10 (fun _ _ => True) Hl).
    eapply Forall2_impl; [| exact Hf].
    intros r3 r10 [g [s [sot [a [b [_ [_ [_ ->]]]]]]]]. eauto.
Qed.

Lemma C7_header_row_alignment_witness :
  exists h3 p3 h10 p10,
    main_upto_10 [expected_headers;
                  ["1"; "P"; "DF,MF"; "ng Nigeria"; "20"; "2000"; "1.0"; "1"; "10"; "4"];
                  expected_last_player]
    = Ok ((h3, p3), (h10, p10)) /\
    Forall (fun r => List.length r = List.length h10) p10.
Proof.
  assert (Hw : forall r, In r [expected_headers;
                  ["1"; "P"; "DF,MF"; "ng Nigeria"; "20"; "2000"; "1.0"; "1"; "10"; "4"];
                  expected_last_player] -> (10 <= List.length r)%nat).
  { intros r Hr. simpl in Hr. repeat destruct Hr as [<- | Hr]; [..| contradiction];
      simpl; lia. }
  assert (H : main_upto_10 [expected_headers;
                  ["1"; "P"; "DF,MF"; "ng Nigeria"; "20"; "2000"; "1.0"; "1"; "10"; "4"];
                  expected_last_player]
              = Ok ((headers_after_03,
                     [map CStr ["1"; "P"; "DF|MF"; "NG"; "Nigeria"; "20"; "2000";
                                "1.0"; "1"; "10"; "4"];
                      map CStr ["619"; "Claudia Zornoza"; "MF"; "ES"; "Spain"; "32";
                                "1990"; "0.4"; "0"; "0"; "0"]]),
                    (headers_after_03 ++ ["shots_conv_rate"; "shots_on_target_conv_rate"],
                     [map CStr ["1"; "P"; "DF|MF"; "NG"; "Nigeria"; "20"; "2000";
                                "1.0"; "1"; "10"; "4"] ++ [CFloat (1 # 10); CFloat (1 # 4)];
                      map CStr ["619"; "Claudia Zornoza"; "MF"; "ES"; "Spain"; "32";
                                "1990"; "0.4"; "0"; "0"; "0"] ++ [CFloat 0; CFloat 0]])))
    by (vm_compute; reflexivity).
  do 4 eexists. split; [exact H |].
  exact (proj1 (proj2 (proj2 (C7_header_row_alignment _ Hw) _ _ _ _ H))).
Defined.

Lemma C6_ranked_report_order_witness :
  sort_teams ranking_sample =
    Ok [List.nth 2 ranking_sample []; List.nth 1 ranking_sample [];
        List.nth 0 ranking_sample []] /\
  StronglySorted ranked_before
    [List.nth 2 ranking_sample []; List.nth 1 ranking_sample [];
     List.nth 0 ranking_sample []].
Proof.
  assert (H : sort_teams ranking_sample =
    Ok [List.nth 2 ranking_sample []; List.nth 1 ranking_sample [];
        List.nth 0 ranking_sample []]) by (vm_compute; reflexivity).
  split; [exact H | exact (C6_ranked_report_order _ _ H)].
Defined.

(** * Further properties of [midterm.py] *)

(** ** Positions *)

Lemma split_char_length (c : ascii) (s : string) :
  List.length (str_split_char c s) = S (count_char c s).
Proof.
  induction s as [| d s IH]; [reflexivity |]. simpl.
  destruct (Ascii.eqb d c); simpl; [now rewrite IH |].
  destruct (str_split_char c s) as [| p ps]; simpl in *; [discriminate | exact IH].
Qed.

(** [get_multi_position_players] keeps exactly the rows whose position
    field holds a pipe, in input order. *)
Theorem multi_position_players_filter (players res : list row) (pos_idx : Z) :
  get_multi_position_players players pos_idx = Ok res ->
  res = filter (fun p => match py_getitem p pos_idx with
                         | Ok (CStr s) => (0 <? count_char "|"%char s)%nat
                         | _ => false
                         end) players.
Proof.
  revert res; induction players as [| p ps IH]; intros res H; simpl in H.
  - now injection H as <-.
  - invert_binds. destruct a as [s | z | q]; simpl in Ha0; try discriminate.
    injection Ha0 as <-. simpl. rewrite Ha. rewrite split_char_length in H.
    destruct (count_char "|"%char s) as [| n]; simpl in H |- *;
      injection H as <-; [| f_equal]; now apply IH.
Qed.

Lemma multi_position_players_filter_witness :
  let res := [List.nth 0 selector_sample []; List.nth 2 selector_sample []] in
  get_multi_position_players selector_sample 1 = Ok res /\
  res = filter (fun p => match py_getitem p 1 with
                         | Ok (CStr s) => (0 <? count_char "|"%char s)%nat
                         | _ => false
                         end) selector_sample.
Proof.
  intros res.
  assert (H : get_multi_position_players selector_sample 1 = Ok res)
    by (vm_compute; reflexivity).
  split; [exact H | exact (multi_position_players_filter _ _ _ H)].
Defined.

Lemma count_char_format (s : string) :
  count_char "|"%char (format_player_position s)
  = (count_char ","%char s + count_char "|"%char s)%nat.
Proof.
  induction s as [| d s IH]; [reflexivity |].
  rewrite format_player_position_cons. simpl. rewrite IH.
  destruct (Ascii.eqb d ","%char) eqn:E1; simpl.
  - apply Ascii.eqb_eq in E1. subst d. simpl. lia.
  - destruct (Ascii.eqb d "|"%char); lia.
Qed.

(** A position reformatted by 3.2 splits on ["|"] into one piece more than
    the commas and pipes of the original: it counts as several positions
    exactly when the original held a comma or a pipe. *)
Theorem format_then_split_pieces (s : string) :
  List.length (str_split_char "|"%char (format_player_position s))
  = S (count_char ","%char s + count_char "|"%char s).
Proof. now rewrite split_char_length, count_char_format. Qed.

(** ** Teams *)

Lemma get_team_In (players res : list row) (squad_idx : Z) (squad : string) :
  get_team players squad_idx squad = Ok res ->
  forall p, In p res <->
    In p players /\
    exists s, py_getitem p squad_idx = Ok (CStr s) /\ str_lower s = str_lower squad.
Proof.
  intros H. revert res H; induction players as [| p ps IH]; intros res H; simpl in H.
  + injection H as <-. simpl. tauto.
  + invert_binds. destruct a as [s | z | q]; simpl in Ha0; try discriminate.
    injection Ha0 as <-.
    specialize (IH _ Ha1).
    destruct (String.eqb (str_lower s) (str_lower squad)) eqn:E;
      injection H as <-; intros q.
    * apply String.eqb_eq in E. simpl. rewrite IH. split.
      -- intros [<- | [Hq Hs]].
         ++ split; [now left | exists s; split; [exact Ha | exact E]].
         ++ split; [now right | exact Hs].
      -- intros [[<- | Hq] Hs]; [now left | right; split; assumption].
    * rewrite IH. simpl. split; [intros [Hq Hs]; split; [now right | exact Hs] |].
      intros [[<- | Hq] [s' [Hs' Hl]]]; [| split; [exact Hq | exists s'; split; assumption]].
      rewrite Ha in Hs'. injection Hs' as <-.
      apply String.eqb_neq in E. contradiction.
Qed.

(** [get_team] returns the rows whose squad field is a string equal to
    [squad] up to case, and gives the same result for every spelling of
    [squad] that differs only in case. *)
Theorem get_team_members (players res : list row) (squad_idx : Z) (squad : string) :
  get_team players squad_idx squad = Ok res ->
  (forall p, In p res <->
     In p players /\
     exists s, py_getitem p squad_idx = Ok (CStr s) /\ str_lower s = str_lower squad) /\
  (forall squad', str_lower squad' = str_lower squad ->
     get_team players squad_idx squad' = Ok res).
Proof.
  intros H. split.
  - exact (get_team_In _ _ _ _ H).
  - intros squad' Hl. rewrite <- H.
    clear H. induction players as [| p ps IH]; simpl; [reflexivity |].
    now rewrite Hl, IH.
Qed.

Lemma get_team_members_witness :
  get_team selector_sample 2 "SPAIN" =
    Ok [List.nth 0 selector_sample []; List.nth 2 selector_sample []] /\
  get_team selector_sample 2 "spain" =
    Ok [List.nth 0 selector_sample []; List.nth 2 selector_sample []].
Proof.
  assert (H : get_team selector_sample 2 "SPAIN" =
    Ok [List.nth 0 selector_sample []; List.nth 2 selector_sample []])
    by (vm_compute; reflexivity).
  split; [exact H |].
  exact (proj2 (get_team_members _ _ _ _ H) "spain" eq_refl).
Defined.

(** ** Shooting numbers *)

Definition sum_over (f : row -> Z) (team : list row) : Z :=
  fold_right (fun p acc => f p + acc) 0 team.

Lemma team_shooting_loop_sums (team : list row) (start stop : Z)
    (g s o : row -> Z) (a b c : Z) :
  (forall p, In p team ->
     get_player_shooting_numbers p start stop = Ok [g p; s p; o p]) ->
  team_shooting_loop team start stop a b c
  = Ok (a + sum_over g team, b + sum_over s team, c + sum_over o team).
Proof.
  revert a b c; induction team as [| p ps IH]; intros a b c Hp; simpl.
  - now rewrite !Z.add_0_r.
  - rewrite (Hp p (or_introl eq_refl)). simpl.
    rewrite IH by (intros q Hq; apply Hp; now right).
    f_equal. f_equal; [f_equal |]; lia.
Qed.

(** When every player's slice holds exactly three numbers,
    [get_team_shooting_numbers] returns the three column sums over the team;
    an empty team gives [(0, 0, 0)]. *)
Theorem team_shooting_numbers_sums (team : list row) (start stop : Z)
    (g s o : row -> Z) :
  (forall p, In p team ->
     get_player_shooting_numbers p start stop = Ok [g p; s p; o p]) ->
  get_team_shooting_numbers team start stop
  = Ok (sum_over g team, sum_over s team, sum_over o team).
Proof. intros Hp. exact (team_shooting_loop_sums team start stop g s o 0 0 0 Hp). Qed.

Definition shooting_sample : list row :=
  [[CStr "Ann"; CStr "1"; CStr "4"; CStr "2"];
   [CStr "Bea"; CStr "2"; CInt 4; CStr "2"]].

Definition shooting_col (k : nat) (p : row) : Z :=
  match get_player_shooting_numbers p 1 4 with
  | Ok ns => List.nth k ns 0
  | Err _ => 0
  end.

Lemma team_shooting_numbers_sums_witness :
  (forall p, In p shooting_sample ->
     get_player_shooting_numbers p 1 4 =
       Ok [shooting_col 0 p; shooting_col 1 p; shooting_col 2 p]) /\
  get_team_shooting_numbers shooting_sample 1 4 = Ok (3, 8, 4).
Proof.
  assert (Hp : forall p, In p shooting_sample ->
     get_player_shooting_numbers p 1 4 =
       Ok [shooting_col 0 p; shooting_col 1 p; shooting_col 2 p]).
  { intros p [<- | [<- | []]]; vm_compute; reflexivity. }
  split; [exact Hp |].
  rewrite (team_shooting_numbers_sums shooting_sample 1 4 _ _ _ Hp).
  vm_compute. reflexivity.
Defined.

Lemma mapM_py_int_length (l : list cell) (ns : list Z) :
  mapM py_int l = Ok ns -> List.length ns = List.length l.
Proof.
  intros H. symmetry. exact (Forall2_length (mapM_Forall2 _ _ _ H)).
Qed.

Lemma py_int_str_error (s : string) (e : exn) : py_int_str s = Err e -> e = ValueError.
Proof.
  unfold py_int_str. cbv zeta. intros H.
  match type of H with (match ?r with _ => _ end = _) => destruct r end;
    congruence.
Qed.

Lemma mapM_py_int_error (l : list cell) (e : exn) :
  mapM py_int l = Err e -> e = ValueError.
Proof.
  induction l as [| c l IH]; simpl; [discriminate |].
  destruct (py_int c) as [z | e'] eqn:Hc; simpl.
  - destruct (mapM py_int l); simpl; [discriminate | apply IH].
  - intros [= <-]. destruct c; simpl in Hc; try discriminate.
    exact (py_int_str_error _ _ Hc).
Qed.

Lemma py_slice_length_from (A : Type) (l : list A) (start stop : Z) :
  0 <= start ->
  (List.length (py_slice l (Some start) (Some stop))
   <= List.length l - Z.to_nat start)%nat.
Proof.
  intros H0. unfold py_slice, py_slice_bound.
  rewrite length_firstn, length_skipn.
  destruct (start <? 0) eqn:E; [lia |].
  lia.
Qed.

(** In the loop of 10.2-4, a row too short to hold the three numbers
    [goals, shots, shots_on_target] from index [start] on makes the unpacking
    raise [ValueError]; no row is silently extended. *)
Theorem add_conversion_rates_short_row (start stop : Z) (r : row) :
  0 <= start ->
  (List.length r < Z.to_nat start + 3)%nat ->
  add_conversion_rates start stop r = Err ValueError.
Proof.
  intros H0 Hlen. unfold add_conversion_rates, get_player_shooting_numbers.
  pose proof (py_slice_length_from _ r start stop H0) as Hs.
  destruct (mapM py_int (py_slice r (Some start) (Some stop))) as [ns | e] eqn:Hm;
    simpl.
  - apply mapM_py_int_length in Hm.
    destruct ns as [| x [| y [| z [| w ns]]]]; simpl in Hm; try reflexivity.
    lia.
  - f_equal. exact (mapM_py_int_error _ _ Hm).
Qed.

Lemma add_conversion_rates_short_row_witness :
  add_conversion_rates 8 11
    [CStr "1"; CStr "Ann"; CStr "MF"; CStr "es"; CStr "Spain"; CStr "30";
     CStr "1994"; CStr "3.0"; CStr "2"; CStr "5"] = Err ValueError.
Proof. apply add_conversion_rates_short_row; simpl; lia. Defined.

(** ** Conversion rates and ratings *)

Lemma float_overflows_unit (q : Q) : (0 <= q <= 1)%Q -> float_overflows q = false.
Proof.
  intros [H0 H1]. unfold float_overflows.
  destruct (Qle_bool _ _) eqn:E; [| reflexivity].
  apply Qle_bool_iff in E. rewrite Qabs_pos in E by exact H0.
  assert (Hb : (1 < inject_Z (2 ^ 1024 - 2 ^ 970))%Q)
    by (change 1%Q with (inject_Z 1); rewrite <- Zlt_Qlt; reflexivity).
  exfalso. lra.
Qed.

Lemma div_unit (a b : Z) : 0 <= a <= b -> 0 < b ->
  (0 <= inject_Z a / inject_Z b <= 1)%Q.
Proof.
  intros [Ha Hab] Hb.
  assert (Hb' : (inject_Z 0 < inject_Z b)%Q) by (rewrite <- Zlt_Qlt; exact Hb).
  assert (Ha' : (inject_Z 0 <= inject_Z a)%Q) by (rewrite <- Zle_Qle; exact Ha).
  assert (Hab' : (inject_Z a <= inject_Z b)%Q) by (rewrite <- Zle_Qle; exact Hab).
  change (inject_Z 0) with 0%Q in *.
  split.
  - apply Qle_shift_div_l; [exact Hb' | lra].
  - apply Qle_shift_div_r; [exact Hb' | lra].
Qed.

Lemma round_half_even_range (x : Q) (m : Z) :
  (0 <= x <= inject_Z m)%Q -> 0 <= round_half_even x <= m.
Proof.
  intros [H0 Hm]. unfold round_half_even.
  set (f := Qfloor x).
  assert (Hf0 : 0 <= f)
    by (unfold f; rewrite <- (Qfloor_Z 0); now apply Qfloor_resp_le).
  assert (Hfm : f <= m)
    by (unfold f; rewrite <- (Qfloor_Z m); now apply Qfloor_resp_le).
  assert (Hfx : (inject_Z f <= x)%Q) by apply Qfloor_le.
  assert (Hlt : forall t, (t <= x - inject_Z f)%Q -> (0 < t)%Q -> f < m).
  { intros t Ht Ht0.
    assert (inject_Z f < inject_Z m)%Q by lra. now rewrite Zlt_Qlt. }
  destruct (Qcompare (x - inject_Z f) (1 # 2)) eqn:E.
  - apply Qeq_alt in E.
    assert (f < m) by (apply (Hlt (1 # 2)); [rewrite E; apply Qle_refl | reflexivity]).
    destruct (Z.even f); lia.
  - lia.
  - apply Qgt_alt in E.
    assert (f < m) by (apply (Hlt (1 # 2)); [lra | reflexivity]).
    lia.
Qed.

Lemma py_round_unit (x : Q) (ndigits : Z) :
  (0 <= x <= 1)%Q -> 0 <= ndigits < 2 ^ 63 ->
  exists y, py_round x ndigits = Ok y /\ (0 <= y <= 1)%Q.
Proof.
  intros Hx Hn. unfold py_round.
  replace ((ndigits <? - 2 ^ 63) || (2 ^ 63 - 1 <? ndigits)) with false
    by (symmetry; apply orb_false_iff; split; apply Z.ltb_ge; lia).
  destruct (323 <? ndigits); [eauto |].
  replace (ndigits <? -308) with false by (symmetry; apply Z.ltb_ge; lia).
  replace (0 <=? ndigits) with true by (symmetry; apply Z.leb_le; lia).
  assert (Hs : 0 < 10 ^ ndigits) by (apply Z.pow_pos_nonneg; lia).
  assert (Hs' : (inject_Z 0 < inject_Z (10 ^ ndigits))%Q) by (rewrite <- Zlt_Qlt; exact Hs).
  change (inject_Z 0) with 0%Q in *.
  assert (Hk : 0 <= round_half_even (x * inject_Z (10 ^ ndigits)) <= 10 ^ ndigits).
  { apply round_half_even_range. destruct Hx. split; nra. }
  assert (Hy : (0 <= Qred (inject_Z (round_half_even (x * inject_Z (10 ^ ndigits)))
                    / inject_Z (10 ^ ndigits)) <= 1)%Q).
  { rewrite Qred_correct. now apply div_unit. }
  rewrite (float_overflows_unit _ Hy). eauto.
Qed.

(** For a non-negative precision that [round] accepts, a goal count between
    [0] and a positive shot count gives a rate in [[0, 1]]: no exception, no
    rate above 100%. *)
Theorem conversion_rate_unit_interval (goals shots precision : Z) :
  0 <= goals <= shots -> 0 < shots -> 0 <= precision < 2 ^ 63 ->
  exists r, calculate_shot_conversion_rate goals shots precision = Ok r /\
            (0 <= r <= 1)%Q.
Proof.
  intros Hg Hs Hp.
  unfold calculate_shot_conversion_rate, conversion_rate_body, py_truediv.
  replace (shots =? 0) with false by (symmetry; apply Z.eqb_neq; lia).
  assert (Hq : (0 <= Qred (inject_Z goals / inject_Z shots) <= 1)%Q)
    by (rewrite Qred_correct; now apply div_unit).
  rewrite (float_overflows_unit _ Hq).
  destruct (py_round_unit _ precision Hq Hp) as [y [Hy' Hy]].
  cbn [bind]. rewrite Hy'. eauto.
Qed.

Lemma conversion_rate_unit_interval_witness :
  exists r, calculate_shot_conversion_rate 2 7 3 = Ok r /\ (0 <= r <= 1)%Q.
Proof. apply conversion_rate_unit_interval; lia. Defined.

Lemma tier_rank_rating (r : Q) :
  tier_rank (efficiency_rating r) =
  if Qle_bool (2 # 5) r then 3%nat
  else if Qle_bool (3 # 10) r then 2%nat
  else if Qle_bool (1 # 5) r then 1%nat
  else 0%nat.
Proof.
  unfold efficiency_rating.
  destruct (Qle_bool (2 # 5) r), (Qle_bool (3 # 10) r), (Qle_bool (1 # 5) r);
    reflexivity.
Qed.

Lemma Qle_bool_false (a b : Q) : Qle_bool a b = false -> (b < a)%Q.
Proof.
  intros H. apply Qnot_le_lt. intros Hle. apply Qle_bool_iff in Hle. congruence.
Qed.

(** The tiers of 12.1-2 are ordered like the rates: a higher rate never gets
    a lower tier. *)
Theorem efficiency_rating_monotone (r1 r2 : Q) :
  (r1 <= r2)%Q ->
  (tier_rank (efficiency_rating r1) <= tier_rank (efficiency_rating r2))%nat.
Proof.
  intros H. rewrite !tier_rank_rating.
  repeat match goal with
  | |- context [Qle_bool ?a ?b] =>
      let E := fresh "E" in
      destruct (Qle_bool a b) eqn:E;
      [apply Qle_bool_iff in E | apply Qle_bool_false in E]
  end; try lia; exfalso; lra.
Qed.

Lemma efficiency_rating_monotone_witness :
  (tier_rank (efficiency_rating (1 # 4)) <= tier_rank (efficiency_rating (1 # 3)))%nat.
Proof. apply efficiency_rating_monotone. unfold Qle; simpl; lia. Defined.

(** ** Team names *)

Lemma py_cell_eq_refl (c : cell) : py_cell_eq c c = true.
Proof.
  destruct c as [s | z | q]; simpl.
  - apply String.eqb_refl.
  - apply Z.eqb_refl.
  - apply Qeq_bool_iff. reflexivity.
Qed.

Lemma existsb_false_In {A} (f : A -> bool) (l : list A) (x : A) :
  existsb f l = false -> In x l -> f x = false.
Proof.
  intros H Hx. destruct (f x) eqn:E; [| reflexivity].
  assert (existsb f l = true) by (apply existsb_exists; eauto). congruence.
Qed.

Lemma ForallOrdPairs_snoc {A} (R : A -> A -> Prop) (l : list A) (c : A) :
  ForallOrdPairs R l -> (forall a, In a l -> R a c) -> ForallOrdPairs R (l ++ [c]).
Proof.
  induction l as [| a l IH]; intros Hl Hc; simpl.
  - repeat constructor.
  - inversion Hl as [| ? ? Ha Hl']; subst. constructor.
    + apply Forall_app. split; [exact Ha |]. constructor; [apply Hc; now left | constructor].
    + apply IH; [exact Hl' | intros b Hb; apply Hc; now right].
Qed.

Lemma team_names_loop_spec (players : list row) (squad_idx : Z) (lst names : list cell) :
  team_names_loop players squad_idx lst = Ok names ->
  (forall n, In n names ->
     In n lst \/ exists p, In p players /\ py_getitem p squad_idx = Ok n) /\
  (forall c, In c lst -> In c names) /\
  (forall p, In p players -> exists c n,
     py_getitem p squad_idx = Ok c /\ In n names /\ py_cell_eq c n = true) /\
  (ForallOrdPairs (fun a b => py_cell_eq b a = false) lst ->
   ForallOrdPairs (fun a b => py_cell_eq b a = false) names).
Proof.
  revert lst; induction players as [| p ps IH]; intros lst H; simpl in H.
  - injection H as <-. repeat split; auto; intros; contradiction.
  - invert_binds. destruct (existsb (py_cell_eq a) lst) eqn:E.
    + destruct (IH _ H) as (H1 & H2 & H3 & H4). repeat split.
      * intros n Hn. destruct (H1 n Hn) as [Hl | (q & Hq & Hg)]; [now left |].
        right. exists q. split; [now right | exact Hg].
      * exact H2.
      * intros q [<- | Hq]; [| now apply H3].
        apply existsb_exists in E. destruct E as (n & Hn & Heq).
        exists a, n. auto.
      * exact H4.
    + destruct (IH _ H) as (H1 & H2 & H3 & H4). repeat split.
      * intros n Hn. destruct (H1 n Hn) as [Hl | (q & Hq & Hg)].
        -- apply in_app_or in Hl. destruct Hl as [Hl | [<- | []]]; [now left |].
           right. exists p. split; [now left | exact Ha].
        -- right. exists q. split; [now right | exact Hg].
      * intros c Hc. apply H2. apply in_or_app. now left.
      * intros q [<- | Hq]; [| now apply H3].
        exists a, a. repeat split; [exact Ha | | apply py_cell_eq_refl].
        apply H2. apply in_or_app. right. now left.
      * intros Hl. apply H4. apply ForallOrdPairs_snoc; [exact Hl |].
        intros b Hb. exact (existsb_false_In _ _ _ E Hb).
Qed.

(** [get_team_names] returns squad values taken from the players, covers
    every player's squad (up to Python's [==]), and never holds two values
    that compare equal: an [int] and an equal [float] count once. *)
Theorem team_names_distinct_cover (players : list row) (squad_idx : Z)
    (names : list cell) :
  get_team_names players squad_idx = Ok names ->
  (forall n, In n names -> exists p, In p players /\ py_getitem p squad_idx = Ok n) /\
  (forall p, In p players -> exists c n,
     py_getitem p squad_idx = Ok c /\ In n names /\ py_cell_eq c n = true) /\
  ForallOrdPairs (fun a b => py_cell_eq b a = false) names.
Proof.
  intros H. destruct (team_names_loop_spec _ _ _ _ H) as (H1 & _ & H3 & H4).
  split; [| split; [exact H3 | apply H4; constructor]].
  intros n Hn. destruct (H1 n Hn) as [[] | Hp]. exact Hp.
Qed.

Definition names_sample : list row :=
  [[CStr "Ann"; CStr "Spain"]; [CStr "Bea"; CInt 1]; [CStr "Cat"; CFloat 1];
   [CStr "Dan"; CStr "China"]; [CStr "Eve"; CStr "Spain"]].

Lemma team_names_distinct_cover_witness :
  exists names, get_team_names names_sample 1 = Ok names /\
    ForallOrdPairs (fun a b => py_cell_eq b a = false) names.
Proof.
  destruct (get_team_names names_sample 1) as [names | e] eqn:H;
    [| vm_compute in H; discriminate].
  exists names. split; [reflexivity |].
  exact (proj2 (proj2 (team_names_distinct_cover _ _ _ H))).
Defined.

(** ** Ranking *)

Lemma insert_keyed_perm {A} (kx : Q * string * A) (l : list (Q * string * A)) :
  Permutation (insert_keyed kx l) (kx :: l).
Proof.
  induction l as [| ky l IH]; simpl; [reflexivity |].
  destruct (key_lt (fst kx) (fst ky)); [reflexivity |].
  rewrite IH. apply perm_swap.
Qed.

Lemma sort_keyed_perm_gen {A} (l acc : list (Q * string * A)) :
  Permutation (fold_left (fun acc kx => insert_keyed kx acc) l acc) (l ++ acc).
Proof.
  revert acc; induction l as [| kx l IH]; intros acc; simpl; [reflexivity |].
  rewrite IH, insert_keyed_perm. symmetry. apply Permutation_middle.
Qed.

Lemma sort_keyed_perm {A} (l : list (Q * string * A)) :
  Permutation (sort_keyed l) l.
Proof. unfold sort_keyed. rewrite sort_keyed_perm_gen. now rewrite app_nil_r. Qed.

Lemma mapM_keyed_snd (teams : list row) (keyed : list (Q * string * row)) :
  mapM (fun x => k <- sort_key x ;; Ok (k, x)) teams = Ok keyed ->
  map snd keyed = teams.
Proof.
  revert keyed; induction teams as [| t teams IH]; intros keyed H; simpl in H.
  - now injection H as <-.
  - invert_binds.
    repeat match goal with
    | E : Ok _ = Ok _ |- _ => injection E; clear E; intros; subst
    end.
    simpl. f_equal. now apply IH.
Qed.

(** The ranking of 12.4 reorders the rated rows: it drops, duplicates or
    alters none. *)
Theorem sort_teams_permutation (teams out : list row) :
  sort_teams teams = Ok out -> Permutation teams out.
Proof.
  unfold sort_teams. intros H. invert_binds. injection H as <-.
  rewrite <- (mapM_keyed_snd _ _ Ha) at 1.
  apply Permutation_map. symmetry. apply sort_keyed_perm.
Qed.

Lemma sort_teams_permutation_witness :
  exists out, sort_teams ranking_sample = Ok out /\ Permutation ranking_sample out.
Proof.
  destruct (sort_teams ranking_sample) as [out | e] eqn:H;
    [| vm_compute in H; discriminate].
  exists out. split; [reflexivity | exact (sort_teams_permutation _ _ H)].
Defined.

(** ** Challenges 11 and 12 together *)

Lemma mapM_ok_Forall {A B} (f : A -> result B) (P : B -> Prop) (l : list A) :
  (forall x, In x l -> exists y, f x = Ok y /\ P y) ->
  exists l', mapM f l = Ok l' /\ Forall P l' /\ List.length l' = List.length l.
Proof.
  induction l as [| x l IH]; intros Hf; simpl.
  - exists []. auto.
  - destruct (Hf x (or_introl eq_refl)) as (y & Hy & Py).
    destruct IH as (l' & Hl' & Pl' & Ll'); [intros z Hz; apply Hf; now right |].
    rewrite Hy. cbn [bind]. rewrite Hl'. cbn [bind].
    exists (y :: l'). simpl. auto.
Qed.

Lemma Forall2_In_r {A B} (R : A -> B -> Prop) (l1 : list A) (l2 : list B) (y : B) :
  Forall2 R l1 l2 -> In y l2 -> exists x, In x l1 /\ R x y.
Proof.
  induction 1 as [| x y' l1 l2 Hxy _ IH]; [intros [] |].
  intros [<- | Hy]; [exists x; split; [now left | exact Hxy] |].
  destruct (IH Hy) as (x' & Hx' & R'). exists x'. split; [now right | exact R'].
Qed.

Lemma team_metrics_shape (players : list row) (squad_idx start stop : Z)
    (country : string) (t : row) :
  team_metrics players squad_idx start stop country = Ok t ->
  exists g s o r1 r2,
    t = [CStr country; CInt g; CInt s; CInt o; CFloat r1; CFloat r2].
Proof.
  unfold team_metrics. intros H. invert_binds.
  destruct a0 as [[g s] o]. invert_binds. injection H as <-. eauto 10.
Qed.

(** Whatever per-country rows challenge 11 produces, challenge 12 rates and
    ranks them without raising: one ranked row per country, each as wide as
    the extended header row. *)
Theorem challenge11_then_12 (players : list row) (squad_idx start stop : Z)
    (countries : list string) (teams : list row) :
  challenge11 players squad_idx start stop countries = Ok teams ->
  exists ranked,
    challenge12 teams = Ok (team_headers ++ ["efficiency_rating"], ranked) /\
    List.length ranked = List.length countries /\
    Forall (fun r => List.length r = List.length (team_headers ++ ["efficiency_rating"]))
      ranked.
Proof.
  intros H. unfold challenge11 in H.
  pose proof (mapM_Forall2 _ _ _ H) as H2.
  assert (Hlen : List.length teams = List.length countries)
    by (symmetry; exact (Forall2_length H2)).
  assert (Hshape : forall t, In t teams -> exists c g s o r1 r2,
            t = [CStr c; CInt g; CInt s; CInt o; CFloat r1; CFloat r2]).
  { intros t Ht. destruct (Forall2_In_r _ _ _ _ H2 Ht) as (c & _ & Hc).
    destruct (team_metrics_shape _ _ _ _ _ _ Hc) as (g & s & o & r1 & r2 & ->).
    eauto 10. }
  assert (Hrate : forall t, In t teams -> exists y, rate_team t = Ok y /\
            exists c g s o r1 r2 lbl,
              y = [CStr c; CInt g; CInt s; CInt o; CFloat r1; CFloat r2; CStr lbl]).
  { intros t Ht. destruct (Hshape t Ht) as (c & g & s & o & r1 & r2 & ->).
    exists [CStr c; CInt g; CInt s; CInt o; CFloat r1; CFloat r2;
            CStr (efficiency_rating r2)].
    split; [reflexivity | eauto 10]. }
  destruct (mapM_ok_Forall _ _ _ Hrate) as (rated & Hr & Pr & Lr).
  assert (Hkey : forall t, In t rated -> exists y,
            (k <- sort_key t ;; Ok (k, t)) = Ok y /\ True).
  { intros t Ht. rewrite Forall_forall in Pr.
    destruct (Pr t Ht) as (c & g & s & o & r1 & r2 & lbl & ->).
    eexists. split; [reflexivity | exact I]. }
  destruct (mapM_ok_Forall _ _ _ Hkey) as (keyed & Hk & _ & _).
  exists (map snd (sort_keyed keyed)).
  unfold challenge12, rate_teams, sort_teams.
  rewrite Hr. cbn [bind]. rewrite Hk. cbn [bind].
  pose proof (Permutation_map snd (sort_keyed_perm keyed)) as Hp.
  rewrite (mapM_keyed_snd _ _ Hk) in Hp.
  repeat split.
  - rewrite (Permutation_length Hp), Lr. exact Hlen.
  - apply Forall_forall. intros r Hin. apply (Permutation_in _ Hp) in Hin.
    rewrite Forall_forall in Pr.
    destruct (Pr r Hin) as (c & g & s & o & r1 & r2 & lbl & ->). reflexivity.
Qed.

Definition pipeline_sample : list row :=
  [[CStr "Ann"; CStr "Spain"; CStr "1"; CStr "4"; CStr "2"];
   [CStr "Bea"; CStr "China PR"; CStr "0"; CStr "3"; CStr "1"];
   [CStr "Cat"; CStr "spain"; CStr "2"; CStr "4"; CStr "2"]].

Lemma challenge11_then_12_witness :
  exists teams, challenge11 pipeline_sample 1 2 5 ["Spain"; "China PR"] = Ok teams /\
  exists ranked,
    challenge12 teams = Ok (team_headers ++ ["efficiency_rating"], ranked) /\
    List.length ranked = 2%nat.
Proof.
  destruct (challenge11 pipeline_sample 1 2 5 ["Spain"; "China PR"])
    as [teams | e] eqn:H; [| vm_compute in H; discriminate].
  exists teams. split; [reflexivity |].
  destruct (challenge11_then_12 _ _ _ _ _ _ H) as (ranked & H1 & H2 & _).
  exists ranked. split; [exact H1 | exact H2].
Defined.

(** ** Challenge 08 *)

Lemma subseq_In {A} (l1 l2 : list A) (x : A) : subseq l1 l2 -> In x l1 -> In x l2.
Proof.
  induction 1 as [| y l1 l2 _ IH | y l1 l2 _ IH]; simpl; [tauto | |]; intuition.
Qed.

(** Every row in the file of 8.6 is a player of the table whose squad
    matches, up to case, one of the countries looped over. *)
Theorem challenge08_rows (players : list row) (squad_idx gls_idx : Z)
    (countries : list string) (res : list row) :
  challenge08 players squad_idx gls_idx countries = Ok res ->
  forall r, In r res ->
    In r players /\
    exists c s, In c countries /\ py_getitem r squad_idx = Ok (CStr s) /\
                str_lower s = str_lower c.
Proof.
  unfold challenge08. intros H r Hr. invert_binds. injection H as <-.
  apply in_concat in Hr. destruct Hr as (ts & Hts & Hr).
  destruct (Forall2_In_r _ _ _ _ (mapM_Forall2 _ _ _ Ha) Hts) as (c & Hc & Ht).
  unfold team_top_scorer, get_top_scorer in Ht. invert_binds.
  apply (top_scorer_loop_subseq gls_idx a0 [] [] 0 ts (subseq_nil_l [])) in Ht.
  apply (subseq_In _ _ r Ht) in Hr. simpl in Hr.
  apply (get_team_In _ _ _ _ Ha0) in Hr. destruct Hr as (Hp & s & Hs & Hl).
  split; [exact Hp |]. exists c, s. auto.
Qed.

Lemma challenge08_rows_witness :
  exists res, challenge08 top_scorer_team_sample 1 2 ["spain"; "China PR"] = Ok res /\
  forall r, In r res -> In r top_scorer_team_sample.
Proof.
  destruct (challenge08 top_scorer_team_sample 1 2 ["spain"; "China PR"])
    as [res | e] eqn:H; [| vm_compute in H; discriminate].
  exists res. split; [reflexivity |].
  intros r Hr. exact (proj1 (challenge08_rows _ _ _ _ _ H r Hr)).
Defined.
